(** * A Kalman-filter point stabilizer: shallow embedding of [stabilizer.py]

    The Python class [Stabilizer] wraps an OpenCV [cv2.KalmanFilter].  The
    class itself (constructor, [update], [set_q_r]) is embedded from the
    source.  The OpenCV object is a collaborator whose code is not part of the
    repository: it is modelled in [Module Kalman] from the specification of
    the linear Kalman core.

    Scalars are single-precision floats ([np.float32]).  All definitions are
    written over an interface [Float32] of the arithmetic they use, so every
    theorem holds for any arithmetic; the instance [binary32] is IEEE-754
    single precision from the Standard Library's [SpecFloat]. *)

From Stdlib Require Import ZArith List Bool Lia.
From Stdlib Require Import Floats.SpecFloat.
Import ListNotations.

Set Implicit Arguments.

(* ------------------------------------------------------------------ *)
(** ** Scalars *)

Class Float32 (R : Type) : Type := {
  f0 : R;                      (* 0.0 *)
  f1 : R;                      (* 1.0 *)
  fadd : R -> R -> R;
  fsub : R -> R -> R;
  fmul : R -> R -> R;
  fltb : R -> R -> bool;       (* strict comparison [<] *)
  of_int : Z -> R              (* conversion of a Python int *)
}.

(** IEEE-754 binary32: 24 bits of precision, maximal exponent 128. *)
Module B32.
Definition prec : Z := 24.
Definition emax : Z := 128.
Definition t := spec_float.
Definition of_Z (z : Z) : t := binary_normalize prec emax z 0 false.
Definition zero : t := of_Z 0.
Definition one : t := of_Z 1.
Definition add : t -> t -> t := SFadd prec emax.
Definition sub : t -> t -> t := SFsub prec emax.
Definition mul : t -> t -> t := SFmul prec emax.
Definition div : t -> t -> t := SFdiv prec emax.
Definition ltb : t -> t -> bool := SFltb.
End B32.

#[global] Instance binary32 : Float32 B32.t := {|
  f0 := B32.zero;
  f1 := B32.one;
  fadd := B32.add;
  fsub := B32.sub;
  fmul := B32.mul;
  fltb := B32.ltb;
  of_int := B32.of_Z
|}.

(* ------------------------------------------------------------------ *)
(** ** Exceptions and the state-and-exception monad

    A Python method mutates [self]; when it raises, the mutations made so far
    stay.  A computation therefore returns its result or the exception
    together with the state reached. *)

Inductive exn : Type :=
| AssertionError   (* the [assert] of the constructor *)
| IndexError       (* [measurement[i]] out of range *)
| cv2_error        (* [cv2.error]: a failed size check of a matrix operation *)
| SystemError      (* the constructor of the OpenCV filter failed *)
| conversion_error. (* an argument of the binding does not fit a C [int];
                       the class of the Python exception is the binding's *)

Inductive result (A : Type) : Type :=
| Ok (a : A)
| Raise (e : exn).

Arguments Ok {A} a.
Arguments Raise {A} e.

Definition M (S A : Type) : Type := S -> result A * S.

Definition ret {S A} (a : A) : M S A := fun s => (Ok a, s).

Definition bind {S A B} (c : M S A) (k : A -> M S B) : M S B :=
  fun s => match c s with
           | (Ok a, s') => k a s'
           | (Raise e, s') => (Raise e, s')
           end.

Definition gets {S A} (f : S -> A) : M S A := fun s => (Ok (f s), s).

Definition modify {S} (f : S -> S) : M S unit := fun s => (Ok tt, f s).

Definition lift {S A} (r : result A) : M S A := fun s => (r, s).

Declare Scope monad_scope.
Delimit Scope monad_scope with monad.
Notation "x <- c ;; k" := (bind c (fun x => k))
  (at level 61, c at next level, right associativity) : monad_scope.
Notation "c ;; k" := (bind c (fun _ => k))
  (at level 61, right associativity) : monad_scope.

(** Unfolding the monad in a proof. *)
Ltac run_monad :=
  unfold bind, gets, lift, modify, ret; cbn.

(** Sequence indexing [l[i]] for a constant index [i >= 0]. *)
Definition index {A} (l : list A) (i : nat) : result A :=
  match nth_error l i with
  | Some x => Ok x
  | None => Raise IndexError
  end.

(* ------------------------------------------------------------------ *)
(** ** Dense matrices, row-major *)

Section Matrices.
Context {R : Type} {F32 : Float32 R}.

Definition matrix : Type := list (list R).

Definition rows (A : matrix) : nat := length A.

Definition cols (A : matrix) : nat :=
  match A with
  | [] => 0
  | r :: _ => length r
  end.

Definition build (r c : nat) (f : nat -> nat -> R) : matrix :=
  map (fun i => map (fun j => f i j) (seq 0 c)) (seq 0 r).

Definition zeros (r c : nat) : matrix := build r c (fun _ _ => f0).

Definition eye (n : nat) : matrix :=
  build n n (fun i j => if Nat.eqb i j then f1 else f0).

Definition entry (A : matrix) (i j : nat) : R := nth j (nth i A []) f0.

Definition col (A : matrix) (j : nat) : list R :=
  map (fun r => nth j r f0) A.

Definition transpose (A : matrix) : matrix :=
  build (cols A) (rows A) (fun i j => entry A j i).

(** [M * c] of numpy: every entry times the scalar. *)
Definition scale (A : matrix) (c : R) : matrix :=
  map (map (fun x => fmul x c)) A.

(** Dot product, accumulated from the left starting at zero. *)
Definition dot (u v : list R) : R :=
  fold_left (fun acc p => fadd acc (fmul (fst p) (snd p))) (combine u v) f0.

Fixpoint map2 {X Y Z : Type} (f : X -> Y -> Z) (u : list X) (v : list Y)
  : list Z :=
  match u, v with
  | x :: u', y :: v' => f x y :: map2 f u' v'
  | _, _ => []
  end.

Definition same_size (A B : matrix) : bool :=
  Nat.eqb (rows A) (rows B) && Nat.eqb (cols A) (cols B).

(** OpenCV checks sizes and raises where they do not fit. *)
Definition mat_mul (A B : matrix) : result matrix :=
  if Nat.eqb (cols A) (rows B)
  then Ok (map (fun r => map (fun j => dot r (col B j)) (seq 0 (cols B))) A)
  else Raise cv2_error.

Definition mat_add (A B : matrix) : result matrix :=
  if same_size A B then Ok (map2 (map2 fadd) A B) else Raise cv2_error.

Definition mat_sub (A B : matrix) : result matrix :=
  if same_size A B then Ok (map2 (map2 fsub) A B) else Raise cv2_error.

(** [gemm(A, B, 1, C, 1, dst, GEMM_2_T)]: [A * B^T + C]. *)
Definition gemm_2T (A B C : matrix) : result matrix :=
  match mat_mul A (transpose B) with
  | Ok AB => mat_add AB C
  | Raise e => Raise e
  end.

(** The diagonal of a matrix. *)
Definition diagonal (A : matrix) : list R :=
  map (fun i => entry A i i) (seq 0 (rows A)).

Definition positive_diagonal (A : matrix) : bool :=
  forallb (fun d => fltb f0 d) (diagonal A).

(** A numpy array of one or of two dimensions. *)
Inductive ndarray : Type :=
| A1 (v : list R)
| A2 (m : matrix).

(** OpenCV reads a one-dimensional array as a column. *)
Definition as_mat (a : ndarray) : matrix :=
  match a with
  | A1 v => map (fun x => [x]) v
  | A2 m => m
  end.
End Matrices.

Arguments matrix R : clear implicits.
Arguments ndarray R : clear implicits.

(* ------------------------------------------------------------------ *)
(** ** The linear Kalman core ([cv2.KalmanFilter]) *)

Module Kalman.
Section Core.
Context {R : Type} {F32 : Float32 R}.

(** The least-squares solver behind the gain ([cv2.solve] with
    [DECOMP_SVD]): for a system [A X = B] it gives the entries of [X], or
    raises (the specification lets [correct] fail on a singular innovation
    covariance; OpenCV's solver never does).  Its arithmetic is not
    modelled. *)
Variable solve_svd : matrix R -> matrix R -> result (nat -> nat -> R).

(** The entries of the initial error covariance, which the source leaves to
    the library (zero in OpenCV; the specification suggests the identity). *)
Variable errorCov0 : nat -> nat -> R.

(** Modelled from the spec: the state of the linear Kalman core, the OpenCV
    class [cv2.KalmanFilter], whose code is not in the repository.  The
    fields have the names the Python class uses: the a priori and the a
    posteriori state, the model matrices F, H, Q, R, the a priori and a
    posteriori error covariance and the gain. *)
Record KalmanFilter : Type := mk {
  statePre : matrix R;
  statePost : matrix R;
  transitionMatrix : matrix R;
  measurementMatrix : matrix R;
  processNoiseCov : matrix R;
  measurementNoiseCov : matrix R;
  errorCovPre : matrix R;
  gain : matrix R;
  errorCovPost : matrix R
}.

Definition set_statePre v k :=
  mk v (statePost k) (transitionMatrix k) (measurementMatrix k)
     (processNoiseCov k) (measurementNoiseCov k) (errorCovPre k) (gain k)
     (errorCovPost k).
Definition set_statePost v k :=
  mk (statePre k) v (transitionMatrix k) (measurementMatrix k)
     (processNoiseCov k) (measurementNoiseCov k) (errorCovPre k) (gain k)
     (errorCovPost k).
Definition set_transitionMatrix v k :=
  mk (statePre k) (statePost k) v (measurementMatrix k)
     (processNoiseCov k) (measurementNoiseCov k) (errorCovPre k) (gain k)
     (errorCovPost k).
Definition set_measurementMatrix v k :=
  mk (statePre k) (statePost k) (transitionMatrix k) v
     (processNoiseCov k) (measurementNoiseCov k) (errorCovPre k) (gain k)
     (errorCovPost k).
Definition set_processNoiseCov v k :=
  mk (statePre k) (statePost k) (transitionMatrix k) (measurementMatrix k)
     v (measurementNoiseCov k) (errorCovPre k) (gain k) (errorCovPost k).
Definition set_measurementNoiseCov v k :=
  mk (statePre k) (statePost k) (transitionMatrix k) (measurementMatrix k)
     (processNoiseCov k) v (errorCovPre k) (gain k) (errorCovPost k).
Definition set_errorCovPre v k :=
  mk (statePre k) (statePost k) (transitionMatrix k) (measurementMatrix k)
     (processNoiseCov k) (measurementNoiseCov k) v (gain k)
     (errorCovPost k).
Definition set_gain v k :=
  mk (statePre k) (statePost k) (transitionMatrix k) (measurementMatrix k)
     (processNoiseCov k) (measurementNoiseCov k) (errorCovPre k) v
     (errorCovPost k).
Definition set_errorCovPost v k :=
  mk (statePre k) (statePost k) (transitionMatrix k) (measurementMatrix k)
     (processNoiseCov k) (measurementNoiseCov k) (errorCovPre k) (gain k)
     v.

(** The arguments of the OpenCV constructor are C [int]s of 32 bits. *)
Definition c_int (z : Z) : bool :=
  Z.leb (-2147483648) z && Z.ltb z 2147483648.

(** Modelled from the spec: construction of the core,
    [cv2.KalmanFilter(dynamParams, measureParams, controlParams)], for
    positive dimensions [n] and [m]; the state is the zero vector.  Until
    the caller assigns them the model matrices are the library's defaults
    (F and Q and R the identity, H zero).  The source passes
    [controlParams = 0]: there is no control input.  A Python integer that
    is not a C [int] is refused when the arguments are converted; a
    dimension that is not positive makes the constructor fail, which the
    caller sees as a [SystemError].  The memory that matrices of large
    dimensions need is not modelled: what is proved of a returning
    construction is used at the dimensions 1, 2 and 4, or under the
    hypothesis that construction returned. *)
Definition create (dynamParams measureParams controlParams : Z)
  : result KalmanFilter :=
  if negb (c_int dynamParams && c_int measureParams && c_int controlParams)
  then Raise conversion_error
  else if Z.ltb 0 dynamParams && Z.ltb 0 measureParams then
    let n := Z.to_nat dynamParams in
    let m := Z.to_nat measureParams in
    Ok {| statePre := zeros n 1;
          statePost := zeros n 1;
          transitionMatrix := eye n;
          measurementMatrix := zeros m n;
          processNoiseCov := eye n;
          measurementNoiseCov := eye m;
          errorCovPre := build n n errorCov0;
          gain := zeros n m;
          errorCovPost := build n n errorCov0 |}
  else Raise SystemError.

(** The solution of [A X = B], of as many rows as [A] has columns and as
    many columns as [B] has; the two sides must have the same number of
    rows. *)
Definition solve (A B : matrix R) : result (matrix R) :=
  if Nat.eqb (rows A) (rows B) then
    match solve_svd A B with
    | Ok x => Ok (build (cols A) (cols B) x)
    | Raise e => Raise e
    end
  else Raise cv2_error.

Local Open Scope monad_scope.

(** Modelled from the spec: [predict()] computes the a priori state
    [x' = F x] and the a priori covariance [P' = F P F^T + Q], stores them
    as the current state and covariance, and returns the a priori state. *)
Definition predict : M KalmanFilter (matrix R) :=
  A <- gets transitionMatrix ;;
  x <- gets statePost ;;
  x' <- lift (mat_mul A x) ;;
  modify (set_statePre x') ;;
  P <- gets errorCovPost ;;
  temp1 <- lift (mat_mul A P) ;;
  Q <- gets processNoiseCov ;;
  P' <- lift (gemm_2T temp1 A Q) ;;
  modify (set_errorCovPre P') ;;
  modify (set_statePost x') ;;
  modify (set_errorCovPost P') ;;
  ret x'.

(** Modelled from the spec: [correct(z)] computes the innovation
    [y = z - H x'], its covariance [S = H P' H^T + R], the gain
    [K = P' H^T S^-1] (as the transpose of the solution of
    [S X = H P']), and stores [x = x' + K y] and [P = P' - K H P'];
    it returns the a posteriori state. *)
Definition correct (z : matrix R) : M KalmanFilter (matrix R) :=
  H <- gets measurementMatrix ;;
  P' <- gets errorCovPre ;;
  temp2 <- lift (mat_mul H P') ;;
  Rn <- gets measurementNoiseCov ;;
  temp3 <- lift (gemm_2T temp2 H Rn) ;;
  temp4 <- lift (solve temp3 temp2) ;;
  modify (set_gain (transpose temp4)) ;;
  K <- gets gain ;;
  x' <- gets statePre ;;
  Hx <- lift (mat_mul H x') ;;
  temp5 <- lift (mat_sub z Hx) ;;
  Ky <- lift (mat_mul K temp5) ;;
  x <- lift (mat_add x' Ky) ;;
  modify (set_statePost x) ;;
  KHP <- lift (mat_mul K temp2) ;;
  P <- lift (mat_sub P' KHP) ;;
  modify (set_errorCovPost P) ;;
  ret x.
End Core.

Arguments KalmanFilter R : clear implicits.
Arguments predict : simpl never.
Arguments correct : simpl never.
End Kalman.

(* ------------------------------------------------------------------ *)
(** ** The class [Stabilizer] *)

Section Stabilizer.
Context {R : Type} {F32 : Float32 R}.
Variable solve_svd : matrix R -> matrix R -> result (nat -> nat -> R).
Variable errorCov0 : nat -> nat -> R.

Record Stabilizer : Type := mkStabilizer {
  state_num : Z;
  measure_num : Z;
  filter : Kalman.KalmanFilter R;
  state : matrix R;
  measurement : ndarray R;
  prediction : matrix R
}.

Definition set_filter v self :=
  mkStabilizer (state_num self) (measure_num self) v (state self)
               (measurement self) (prediction self).
Definition set_state v self :=
  mkStabilizer (state_num self) (measure_num self) (filter self) v
               (measurement self) (prediction self).
Definition set_measurement v self :=
  mkStabilizer (state_num self) (measure_num self) (filter self)
               (state self) v (prediction self).
Definition set_prediction v self :=
  mkStabilizer (state_num self) (measure_num self) (filter self)
               (state self) (measurement self) v.

(** A method of [self.filter] run on the object [self]. *)
Definition on_filter {A} (c : M (Kalman.KalmanFilter R) A)
  : M Stabilizer A :=
  fun self => let (r, k) := c (filter self) in (r, set_filter k self).

(** The matrix literals of the source. *)
Definition lit_F2 : matrix R := [[f1; f1]; [f0; f1]].
Definition lit_H2 : matrix R := [[f1; f1]].
Definition lit_I2 : matrix R := [[f1; f0]; [f0; f1]].
Definition lit_I1 : matrix R := [[f1]].
Definition lit_F4 : matrix R :=
  [[f1; f0; f1; f0]; [f0; f1; f0; f1]; [f0; f0; f1; f0]; [f0; f0; f0; f1]].
Definition lit_H4 : matrix R := [[f1; f0; f0; f0]; [f0; f1; f0; f0]].
Definition lit_I4 : matrix R :=
  [[f1; f0; f0; f0]; [f0; f1; f0; f0]; [f0; f0; f1; f0]; [f0; f0; f0; f1]].

(** [Stabilizer.__init__(state_num, measure_num, cov_process, cov_measure)].
    The two [if]s on [measure_num] are independent and have no [else]. *)
Definition __init__ (state_num' measure_num' : Z)
                    (cov_process cov_measure : R) : result Stabilizer :=
  if negb (Z.eqb state_num' 4 || Z.eqb state_num' 2)
  then Raise AssertionError
  else
    match Kalman.create errorCov0 state_num' measure_num' 0 with
    | Raise e => Raise e
    | Ok kf =>
        let n := Z.to_nat state_num' in
        let self :=
          {| state_num := state_num';
             measure_num := measure_num';
             filter := kf;
             state := zeros n 1;
             measurement := A1 [of_int measure_num'; f1];
             prediction := zeros n 1 |} in
        let self :=
          if Z.eqb (measure_num self) 1 then
            set_filter
              (Kalman.set_measurementNoiseCov (scale lit_I1 cov_measure)
                (Kalman.set_processNoiseCov (scale lit_I2 cov_process)
                  (Kalman.set_measurementMatrix lit_H2
                    (Kalman.set_transitionMatrix lit_F2 (filter self)))))
              self
          else self in
        let self :=
          if Z.eqb (measure_num self) 2 then
            set_filter
              (Kalman.set_measurementNoiseCov (scale lit_I2 cov_measure)
                (Kalman.set_processNoiseCov (scale lit_I4 cov_process)
                  (Kalman.set_measurementMatrix lit_H4
                    (Kalman.set_transitionMatrix lit_F4 (filter self)))))
              self
          else self in
        Ok self
    end.

Local Open Scope monad_scope.

(** [Stabilizer.update(measurement)].  The argument is a sequence of
    numbers, here already in single precision ([np.float32(...)] of each
    component read). *)
Definition update (measurement' : list R) : M Stabilizer unit :=
  p <- on_filter Kalman.predict ;;
  modify (set_prediction p) ;;
  mn <- gets measure_num ;;
  (if Z.eqb mn 1 then
     z0 <- lift (index measurement' 0) ;;
     modify (set_measurement (A2 [[z0]]))
   else
     z0 <- lift (index measurement' 0) ;;
     z1 <- lift (index measurement' 1) ;;
     modify (set_measurement (A2 [[z0]; [z1]]))) ;;
  zv <- gets measurement ;;
  on_filter (Kalman.correct solve_svd (as_mat zv)) ;;
  x <- gets (fun self => Kalman.statePost (filter self)) ;;
  modify (set_state x).

(** [Stabilizer.set_q_r(cov_process, cov_measure)]: plain assignments,
    nothing can raise. *)
Definition set_q_r (cov_process cov_measure : R) (self : Stabilizer)
  : Stabilizer :=
  if Z.eqb (measure_num self) 1 then
    set_filter
      (Kalman.set_measurementNoiseCov (scale lit_I1 cov_measure)
        (Kalman.set_processNoiseCov (scale lit_I2 cov_process)
          (filter self)))
      self
  else
    set_filter
      (Kalman.set_measurementNoiseCov (scale lit_I2 cov_measure)
        (Kalman.set_processNoiseCov (scale lit_I4 cov_process)
          (filter self)))
      self.
End Stabilizer.

Arguments Stabilizer R : clear implicits.

Ltac run_update :=
  unfold update, on_filter, bind, gets, lift, modify, ret; cbn.

(** Case analysis on every result a computation matches on. *)
Ltac split_result :=
  repeat match goal with
         | |- context [match ?r with Ok _ => _ | Raise _ => _ end] =>
             destruct r; cbn
         end.

(* ------------------------------------------------------------------ *)
(** ** Shapes, modes and reachable states *)

Section Shapes.
Context {R : Type} {F32 : Float32 R}.

(** A rectangular matrix of [r] rows and [c] columns. *)
Definition has_shape (r c : nat) (A : matrix R) : Prop :=
  length A = r /\ Forall (fun row => length row = c) A.

(** All matrices of a core of state dimension [n] and measurement
    dimension [m] have the sizes the data model gives them. *)
Record kalman_wf (n m : nat) (k : Kalman.KalmanFilter R) : Prop := {
  wf_statePre : has_shape n 1 (Kalman.statePre k);
  wf_statePost : has_shape n 1 (Kalman.statePost k);
  wf_transitionMatrix : has_shape n n (Kalman.transitionMatrix k);
  wf_measurementMatrix : has_shape m n (Kalman.measurementMatrix k);
  wf_processNoiseCov : has_shape n n (Kalman.processNoiseCov k);
  wf_measurementNoiseCov : has_shape m m (Kalman.measurementNoiseCov k);
  wf_errorCovPre : has_shape n n (Kalman.errorCovPre k);
  wf_gain : has_shape n m (Kalman.gain k);
  wf_errorCovPost : has_shape n n (Kalman.errorCovPost k)
}.

(** The sizes of F, H, Q and R against declared dimensions, as a test. *)
Definition size_is (r c : nat) (A : matrix R) : bool :=
  Nat.eqb (rows A) r && Nat.eqb (cols A) c.

Definition consistent (self : Stabilizer R) : bool :=
  let n := Z.to_nat (state_num self) in
  let m := Z.to_nat (measure_num self) in
  let k := filter self in
  size_is n n (Kalman.transitionMatrix k)
  && size_is m n (Kalman.measurementMatrix k)
  && size_is n n (Kalman.processNoiseCov k)
  && size_is m m (Kalman.measurementNoiseCov k).
End Shapes.

(** The two supported configurations. *)
Inductive Mode : Type := Scalar | Point2D.

Definition mode_n (md : Mode) : nat :=
  match md with Scalar => 2 | Point2D => 4 end.

Definition mode_m (md : Mode) : nat :=
  match md with Scalar => 1 | Point2D => 2 end.

Definition supported (state_num measure_num : Z) : Prop :=
  (state_num = 2%Z /\ measure_num = 1%Z)
  \/ (state_num = 4%Z /\ measure_num = 2%Z).

Section Reachable.
Context {R : Type} {F32 : Float32 R}.
Variable solve_svd : matrix R -> matrix R -> result (nat -> nat -> R).
Variable errorCov0 : nat -> nat -> R.

Definition in_mode (md : Mode) (self : Stabilizer R) : Prop :=
  state_num self = Z.of_nat (mode_n md)
  /\ measure_num self = Z.of_nat (mode_m md).

(** The states of an instance constructed in mode [md]: [reachable md q r s]
    when [s] is reached by calls of [update] (returning or raising) and
    [set_q_r], the noise scalars passed last (to the constructor or to
    [set_q_r]) being [q] and [r]. *)
Inductive reachable (md : Mode) : R -> R -> Stabilizer R -> Prop :=
| reach_init q r s :
    __init__ errorCov0 (Z.of_nat (mode_n md)) (Z.of_nat (mode_m md)) q r
    = Ok s ->
    reachable md q r s
| reach_update q r s z :
    reachable md q r s ->
    reachable md q r (snd (update solve_svd z s))
| reach_set_q_r q r q' r' s :
    reachable md q r s ->
    reachable md q' r' (set_q_r q' r' s).

(** The invariant of the reachable states. *)
Record stabilizer_wf (md : Mode) (q r : R) (s : Stabilizer R) : Prop := {
  wf_mode : in_mode md s;
  wf_filter : kalman_wf (mode_n md) (mode_m md) (filter s);
  wf_state : has_shape (mode_n md) 1 (state s);
  wf_prediction : has_shape (mode_n md) 1 (prediction s);
  wf_Q : Kalman.processNoiseCov (filter s) = scale (eye (mode_n md)) q;
  wf_R : Kalman.measurementNoiseCov (filter s) = scale (eye (mode_m md)) r
}.

(** The measurement vector [update] packs in mode [md]. *)
Definition pack (md : Mode) (z : list R) : matrix R :=
  map (fun x => [x]) (firstn (mode_m md) z).

(** What the caller reads after each of a sequence of [update] calls:
    whether the call returned, the prediction and the state. *)
Fixpoint run_updates (zs : list (list R)) (s : Stabilizer R)
  : list (result unit * matrix R * matrix R) :=
  match zs with
  | [] => []
  | z :: zs' =>
      let (res, s') := update solve_svd z s in
      (res, prediction s', state s') :: run_updates zs' s'
  end.

(** The solver returns a solution for every system, as OpenCV's does. *)
Definition solver_total : Prop :=
  forall A B, exists x, solve_svd A B = Ok x.

(** Following the specification's words: a measurement matrix that
    "selects the position components from the state" has a one in row
    [i], column [i] and zeros elsewhere. *)
Definition selects_position (m n : nat) (H : matrix R) : Prop :=
  H = build m n (fun i j => if Nat.eqb i j then f1 else f0).
End Reachable.

(** Running the model in single precision: a direct solver for systems of
    order one and two (Cramer's rule), a zero initial covariance and the
    default noise scalars of the constructor.  The solver stands in for
    OpenCV's, which decomposes in singular values: its solutions can differ
    from the program's in the last digit, and on a singular system.  It is
    used to run the model at concrete instances only; no theorem depends on
    the values it gives. *)
Module Run.
Definition solve_direct (A B : matrix B32.t)
  : result (nat -> nat -> B32.t) :=
  match A with
  | [[a]] => Ok (fun _ j => B32.div (entry B 0 j) a)
  | [[a; b]; [c; d]] =>
      let det := B32.sub (B32.mul a d) (B32.mul b c) in
      Ok (fun i j =>
            match i with
            | O => B32.div (B32.sub (B32.mul d (entry B 0 j))
                                    (B32.mul b (entry B 1 j))) det
            | _ => B32.div (B32.sub (B32.mul a (entry B 1 j))
                                    (B32.mul c (entry B 0 j))) det
            end)
  | _ => Ok (fun _ _ => B32.zero)
  end.

Definition zero_cov : nat -> nat -> B32.t := fun _ _ => B32.zero.

(** [0.0001] and [0.1] rounded to single precision. *)
Definition cov_process : B32.t := B32.div (B32.of_Z 1) (B32.of_Z 10000).
Definition cov_measure : B32.t := B32.div (B32.of_Z 1) (B32.of_Z 10).

Definition init (state_num measure_num : Z) (q r : B32.t)
  : result (Stabilizer B32.t) :=
  __init__ zero_cov state_num measure_num q r.

Definition step (z : list B32.t) : M (Stabilizer B32.t) unit :=
  update solve_direct z.

Definition num (z : Z) : B32.t := B32.of_Z z.

(** The instance in either mode with the default scalars. *)
Definition fresh (md : Mode) : Stabilizer B32.t :=
  match init (Z.of_nat (mode_n md)) (Z.of_nat (mode_m md))
             cov_process cov_measure with
  | Ok s => s
  | Raise _ =>
      mkStabilizer 0 0 (Kalman.mk [] [] [] [] [] [] [] [] []) [] (A1 []) []
  end.

(** The scalar instance after [set_q_r(-1, -1)]. *)
Definition retuned_negative : Stabilizer B32.t :=
  set_q_r (num (-1)) (num (-1)) (fresh Scalar).
End Run.

(* ------------------------------------------------------------------ *)
(** ** Sequences of calls on one object *)

Section Calls.
Context {R : Type} {F32 : Float32 R}.
Variable solve_svd : matrix R -> matrix R -> result (nat -> nat -> R).

(** The model matrices F, H, Q and R of two filters are the same. *)
Definition same_model (k k' : Kalman.KalmanFilter R) : Prop :=
  Kalman.transitionMatrix k' = Kalman.transitionMatrix k
  /\ Kalman.measurementMatrix k' = Kalman.measurementMatrix k
  /\ Kalman.processNoiseCov k' = Kalman.processNoiseCov k
  /\ Kalman.measurementNoiseCov k' = Kalman.measurementNoiseCov k.

(** A call of one of the two methods of an instance. *)
Inductive call : Type :=
| call_update (measurement' : list R)
| call_set_q_r (cov_process cov_measure : R).

(** The object after a call; an exception raised by [update] is caught by
    the caller, who goes on with the object as the call left it. *)
Definition after_call (self : Stabilizer R) (c : call) : Stabilizer R :=
  match c with
  | call_update z => snd (update solve_svd z self)
  | call_set_q_r q r => set_q_r q r self
  end.

Definition after_calls (cs : list call) (self : Stabilizer R)
  : Stabilizer R :=
  fold_left after_call cs self.

(** The vector [update] builds from its argument: one component when
    [measure_num] is 1, two otherwise. *)
Definition read_measurement (measure_num' : Z) (measurement' : list R)
  : result (matrix R) :=
  if Z.eqb measure_num' 1 then
    match index measurement' 0 with
    | Ok z0 => Ok [[z0]]
    | Raise e => Raise e
    end
  else
    match index measurement' 0, index measurement' 1 with
    | Ok z0, Ok z1 => Ok [[z0]; [z1]]
    | Raise e, _ => Raise e
    | _, Raise e => Raise e
    end.

(** Two ways in which an object cannot complete an [update]: F has not as
    many columns as the state has rows, so that [predict] fails; or the
    two-component branch is taken while H has not two rows, so that the
    innovation cannot be formed. *)
Definition stuck_predict (s : Stabilizer R) : Prop :=
  Nat.eqb (cols (Kalman.transitionMatrix (filter s)))
          (rows (Kalman.statePost (filter s))) = false.

Definition stuck_correct (s : Stabilizer R) : Prop :=
  measure_num s <> 1%Z /\ rows (Kalman.measurementMatrix (filter s)) <> 2.

Definition stuck (s : Stabilizer R) : Prop :=
  stuck_predict s \/ stuck_correct s.
End Calls.

(* ------------------------------------------------------------------ *)
(** ** Sizes of the matrix operations *)

Section ShapeLemmas.
Context {R : Type} {F32 : Float32 R}.

Lemma build_shape r c (f : nat -> nat -> R) : has_shape r c (build r c f).
Proof.
  split.
  - unfold build. now rewrite length_map, length_seq.
  - apply Forall_forall. intros row Hin.
    apply in_map_iff in Hin as (i & <- & _).
    now rewrite length_map, length_seq.
Qed.

Lemma shape_rows r c (A : matrix R) : has_shape r c A -> rows A = r.
Proof. now intros [H _]. Qed.

Lemma shape_cols r c (A : matrix R) :
  has_shape r c A -> 0 < r -> cols A = c.
Proof.
  intros [Hr Hc] Hpos. destruct A as [|row A]; simpl in *; [lia|].
  now inversion Hc.
Qed.

Lemma map2_length {X Y Z} (f : X -> Y -> Z) u v :
  length (map2 f u v) = Nat.min (length u) (length v).
Proof.
  revert v. induction u as [|x u IH]; intros [|y v]; simpl; auto.
Qed.

Lemma map2_shape (f : R -> R -> R) r c (A B : matrix R) :
  has_shape r c A -> has_shape r c B -> has_shape r c (map2 (map2 f) A B).
Proof.
  intros [HrA HcA] [HrB HcB]. split.
  - rewrite map2_length. lia.
  - clear HrA HrB. revert B HcB.
    induction HcA as [|rowA A HA _ IH]; intros B HcB; simpl.
    + constructor.
    + destruct HcB as [|rowB B HB HcB]; constructor.
      * rewrite map2_length. lia.
      * now apply IH.
Qed.

Lemma same_size_shape r c (A B : matrix R) :
  has_shape r c A -> has_shape r c B -> same_size A B = true.
Proof.
  intros HA HB. unfold same_size.
  rewrite (shape_rows HA), (shape_rows HB), Nat.eqb_refl. simpl.
  destruct (Nat.eq_dec r 0) as [->|Hr].
  - destruct HA as [HA _], HB as [HB _].
    destruct A, B; simpl in *; try discriminate. reflexivity.
  - rewrite (shape_cols HA), (shape_cols HB) by lia. apply Nat.eqb_refl.
Qed.

Lemma mat_add_shape r c (A B : matrix R) :
  has_shape r c A -> has_shape r c B ->
  exists C, mat_add A B = Ok C /\ has_shape r c C.
Proof.
  intros HA HB. unfold mat_add. rewrite (same_size_shape HA HB).
  eexists. split; [reflexivity|]. now apply map2_shape.
Qed.

Lemma mat_sub_shape r c (A B : matrix R) :
  has_shape r c A -> has_shape r c B ->
  exists C, mat_sub A B = Ok C /\ has_shape r c C.
Proof.
  intros HA HB. unfold mat_sub. rewrite (same_size_shape HA HB).
  eexists. split; [reflexivity|]. now apply map2_shape.
Qed.

Lemma mat_mul_shape r k c (A B : matrix R) :
  has_shape r k A -> has_shape k c B -> 0 < r -> 0 < k ->
  exists C, mat_mul A B = Ok C /\ has_shape r c C.
Proof.
  intros HA HB Hr Hk. unfold mat_mul.
  rewrite (shape_cols HA Hr), (shape_rows HB), Nat.eqb_refl.
  rewrite (shape_cols HB Hk).
  eexists. split; [reflexivity|]. split.
  - rewrite length_map. apply HA.
  - apply Forall_forall. intros row Hin.
    apply in_map_iff in Hin as (a & <- & _).
    now rewrite length_map, length_seq.
Qed.

Lemma transpose_shape r c (A : matrix R) :
  has_shape r c A -> 0 < r -> has_shape c r (transpose A).
Proof.
  intros HA Hr. unfold transpose.
  rewrite (shape_cols HA Hr), (shape_rows HA). apply build_shape.
Qed.

Lemma gemm_2T_shape r k c (A B C : matrix R) :
  has_shape r k A -> has_shape c k B -> has_shape r c C ->
  0 < r -> 0 < k -> 0 < c ->
  exists D, gemm_2T A B C = Ok D /\ has_shape r c D.
Proof.
  intros HA HB HC Hr Hk Hc. unfold gemm_2T.
  destruct (mat_mul_shape HA (transpose_shape HB Hc) Hr Hk)
    as (AB & -> & HAB).
  now apply mat_add_shape.
Qed.

(** A size mismatch in the product is an OpenCV error. *)
Lemma mat_mul_mismatch r k k' c (A B : matrix R) :
  has_shape r k A -> has_shape k' c B -> 0 < r -> k <> k' ->
  mat_mul A B = Raise cv2_error.
Proof.
  intros HA HB Hr Hk. unfold mat_mul.
  rewrite (shape_cols HA Hr), (shape_rows HB).
  now apply Nat.eqb_neq in Hk as ->.
Qed.

Lemma scale_shape r c (A : matrix R) x :
  has_shape r c A -> has_shape r c (scale A x).
Proof.
  intros [Hr Hc]. split.
  - unfold scale. now rewrite length_map.
  - unfold scale. apply Forall_forall. intros row Hin.
    apply in_map_iff in Hin as (a & <- & Ha).
    rewrite length_map. rewrite Forall_forall in Hc. now apply Hc.
Qed.

Lemma eye_shape n : has_shape n n (eye n).
Proof. apply build_shape. Qed.

Lemma zeros_shape r c : has_shape r c (zeros r c).
Proof. apply build_shape. Qed.

Lemma size_is_shape r c (A : matrix R) :
  has_shape r c A -> 0 < r -> size_is r c A = true.
Proof.
  intros HA Hr. unfold size_is.
  now rewrite (shape_rows HA), (shape_cols HA Hr), !Nat.eqb_refl.
Qed.
End ShapeLemmas.

(* ------------------------------------------------------------------ *)
(** ** The Kalman core on well-sized matrices *)

Section KalmanLemmas.
Context {R : Type} {F32 : Float32 R}.
Variable solve_svd : matrix R -> matrix R -> result (nat -> nat -> R).

(** [predict] returns [F x] and stores it, with the a priori covariance,
    as both the a priori and the current values; nothing else changes. *)
Lemma predict_spec n m (k : Kalman.KalmanFilter R) :
  kalman_wf n m k -> 0 < n ->
  exists x' P',
    mat_mul (Kalman.transitionMatrix k) (Kalman.statePost k) = Ok x'
    /\ has_shape n 1 x' /\ has_shape n n P'
    /\ Kalman.predict k =
         (Ok x',
          Kalman.mk x' x' (Kalman.transitionMatrix k)
            (Kalman.measurementMatrix k) (Kalman.processNoiseCov k)
            (Kalman.measurementNoiseCov k) P' (Kalman.gain k) P').
Proof.
  intros W Hn. destruct W.
  destruct (mat_mul_shape wf_transitionMatrix0 wf_statePost0 Hn Hn)
    as (x' & Ex & Hx).
  destruct (mat_mul_shape wf_transitionMatrix0 wf_errorCovPost0 Hn Hn)
    as (t1 & Et & Ht).
  destruct (gemm_2T_shape Ht wf_transitionMatrix0 wf_processNoiseCov0
              Hn Hn Hn) as (P' & EP & HP).
  exists x', P'. repeat split; try assumption; try apply Hx; try apply HP.
  unfold Kalman.predict. run_monad.
  rewrite Ex. cbn. rewrite Et. cbn. rewrite EP. reflexivity.
Qed.

(** [correct] on an [m]-vector: it raises only when the solver does, and
    then changes nothing; otherwise it stores the gain, the a posteriori
    state [x' + K (z - H x')] and the a posteriori covariance. *)
Lemma correct_spec n m (k : Kalman.KalmanFilter R) (z : matrix R) :
  kalman_wf n m k -> has_shape m 1 z -> 0 < n -> 0 < m ->
  exists temp2 S,
    mat_mul (Kalman.measurementMatrix k) (Kalman.errorCovPre k) = Ok temp2
    /\ gemm_2T temp2 (Kalman.measurementMatrix k)
         (Kalman.measurementNoiseCov k) = Ok S
    /\ match solve_svd S temp2 with
       | Raise e => Kalman.correct solve_svd z k = (Raise e, k)
       | Ok sol =>
           let K := transpose (build m n sol) in
           exists Hx y Ky x P,
             mat_mul (Kalman.measurementMatrix k) (Kalman.statePre k)
             = Ok Hx
             /\ mat_sub z Hx = Ok y
             /\ mat_mul K y = Ok Ky
             /\ mat_add (Kalman.statePre k) Ky = Ok x
             /\ has_shape n 1 x /\ has_shape n n P /\ has_shape n m K
             /\ Kalman.correct solve_svd z k =
                  (Ok x,
                   Kalman.mk (Kalman.statePre k) x
                     (Kalman.transitionMatrix k)
                     (Kalman.measurementMatrix k)
                     (Kalman.processNoiseCov k)
                     (Kalman.measurementNoiseCov k)
                     (Kalman.errorCovPre k) K P)
       end.
Proof.
  intros W Hz Hn Hm. destruct W.
  destruct (mat_mul_shape wf_measurementMatrix0 wf_errorCovPre0 Hm Hn)
    as (temp2 & E2 & H2).
  destruct (gemm_2T_shape H2 wf_measurementMatrix0 wf_measurementNoiseCov0
              Hm Hn Hm) as (S & E3 & H3).
  exists temp2, S. split; [assumption|]. split; [assumption|].
  destruct (solve_svd S temp2) as [sol|e] eqn:Es.
  - assert (E4 : Kalman.solve solve_svd S temp2 = Ok (build m n sol)).
    { unfold Kalman.solve.
      rewrite (shape_rows H3), (shape_rows H2), Nat.eqb_refl, Es.
      now rewrite (shape_cols H3 Hm), (shape_cols H2 Hm). }
    assert (HK : has_shape n m (transpose (build m n sol))).
    { apply transpose_shape; [apply build_shape | assumption]. }
    destruct (mat_mul_shape wf_measurementMatrix0 wf_statePre0 Hm Hn)
      as (Hx & EHx & HHx).
    destruct (mat_sub_shape Hz HHx) as (y & Ey & Hy).
    destruct (mat_mul_shape HK Hy Hn Hm) as (Ky & EKy & HKy).
    destruct (mat_add_shape wf_statePre0 HKy) as (x & Ex & Hxs).
    destruct (mat_mul_shape HK H2 Hn Hm) as (KHP & EKHP & HKHP).
    destruct (mat_sub_shape wf_errorCovPre0 HKHP) as (P & EP & HP).
    cbn zeta. exists Hx, y, Ky, x, P.
    repeat (split; [assumption|]).
    unfold Kalman.correct. run_monad.
    rewrite E2. cbn. rewrite E3. cbn. rewrite E4. cbn.
    rewrite EHx. cbn. rewrite Ey. cbn. rewrite EKy. cbn.
    rewrite Ex. cbn. rewrite EKHP. cbn. rewrite EP. reflexivity.
  - unfold Kalman.correct. run_monad.
    rewrite E2. cbn. rewrite E3. cbn.
    unfold Kalman.solve.
    rewrite (shape_rows H3), (shape_rows H2), Nat.eqb_refl, Es.
    destruct k; reflexivity.
Qed.
End KalmanLemmas.

(* ------------------------------------------------------------------ *)
(** ** [update], step by step *)

Section UpdateLemmas.
Context {R : Type} {F32 : Float32 R}.
Variable solve_svd : matrix R -> matrix R -> result (nat -> nat -> R).
Variable errorCov0 : nat -> nat -> R.

(** When [predict] raises, so does [update], and only the filter has
    changed. *)
Lemma update_predict_raises (s : Stabilizer R) z e k1 :
  Kalman.predict (filter s) = (Raise e, k1) ->
  update solve_svd z s = (Raise e, set_filter k1 s).
Proof. intros E. run_update. now rewrite E. Qed.

(** A measurement with fewer components than the mode reads: the
    prediction is stored, then indexing raises. *)
Lemma update_short md (s : Stabilizer R) z p k1 :
  measure_num s = Z.of_nat (mode_m md) ->
  length z < mode_m md ->
  Kalman.predict (filter s) = (Ok p, k1) ->
  update solve_svd z s =
    (Raise IndexError,
     mkStabilizer (state_num s) (measure_num s) k1 (state s)
                  (measurement s) p).
Proof.
  intros Hm Hz E. destruct s as [sn mn k st ms pr]; cbn in *. subst mn.
  run_update. rewrite E.
  destruct md; cbn in *.
  - destruct z as [|z0 z]; cbn in *; [reflexivity | lia].
  - destruct z as [|z0 [|z1 z]]; cbn in *; try reflexivity. lia.
Qed.

(** A measurement with enough components: the prediction is stored, the
    first [m] components are packed and stored, [correct] runs on them;
    when it returns the a posteriori state is stored. *)
Lemma update_long md (s : Stabilizer R) z p k1 :
  measure_num s = Z.of_nat (mode_m md) ->
  mode_m md <= length z ->
  Kalman.predict (filter s) = (Ok p, k1) ->
  update solve_svd z s =
    match Kalman.correct solve_svd (pack md z) k1 with
    | (Ok _, k2) =>
        (Ok tt,
         mkStabilizer (state_num s) (measure_num s) k2
                      (Kalman.statePost k2) (A2 (pack md z)) p)
    | (Raise e, k2) =>
        (Raise e,
         mkStabilizer (state_num s) (measure_num s) k2 (state s)
                      (A2 (pack md z)) p)
    end.
Proof.
  intros Hm Hz E. destruct s as [sn mn k st ms pr]; cbn in *. subst mn.
  run_update. rewrite E.
  destruct md; cbn in *.
  - destruct z as [|z0 z]; cbn in *; [lia|].
    unfold pack; cbn.
    destruct (Kalman.correct solve_svd [[z0]] k1) as [[x|e] k2];
      reflexivity.
  - destruct z as [|z0 [|z1 z]]; cbn in *; try lia.
    unfold pack; cbn.
    destruct (Kalman.correct solve_svd [[z0]; [z1]] k1) as [[x|e] k2];
      reflexivity.
Qed.

Lemma pack_shape md (z : list R) :
  mode_m md <= length z -> has_shape (mode_m md) 1 (pack md z).
Proof.
  intros Hz. unfold pack. split.
  - rewrite length_map, length_firstn. lia.
  - apply Forall_forall. intros row Hin.
    now apply in_map_iff in Hin as (x & <- & _).
Qed.

Lemma mode_n_pos md : 0 < mode_n md.
Proof. destruct md; cbn; lia. Qed.

Lemma mode_m_pos md : 0 < mode_m md.
Proof. destruct md; cbn; lia. Qed.

(** The literals of the source are the identity matrices. *)
Lemma lit_I1_eye : lit_I1 = eye (R := R) 1.
Proof. reflexivity. Qed.

Lemma lit_I2_eye : lit_I2 = eye (R := R) 2.
Proof. reflexivity. Qed.

Lemma lit_I4_eye : lit_I4 = eye (R := R) 4.
Proof. reflexivity. Qed.

(** Construction in a supported mode returns, and what it returns. *)
Lemma init_mode md q r :
  exists s,
    __init__ errorCov0 (Z.of_nat (mode_n md)) (Z.of_nat (mode_m md)) q r
    = Ok s
    /\ in_mode md s
    /\ state s = zeros (mode_n md) 1
    /\ prediction s = zeros (mode_n md) 1
    /\ Kalman.statePost (filter s) = zeros (mode_n md) 1
    /\ Kalman.transitionMatrix (filter s)
       = match md with Scalar => lit_F2 | Point2D => lit_F4 end
    /\ Kalman.measurementMatrix (filter s)
       = match md with Scalar => lit_H2 | Point2D => lit_H4 end
    /\ Kalman.processNoiseCov (filter s) = scale (eye (mode_n md)) q
    /\ Kalman.measurementNoiseCov (filter s) = scale (eye (mode_m md)) r.
Proof.
  destruct md; eexists; (split; [reflexivity|]);
    repeat split; reflexivity.
Qed.

Lemma init_wf md q r s :
  __init__ errorCov0 (Z.of_nat (mode_n md)) (Z.of_nat (mode_m md)) q r
  = Ok s ->
  stabilizer_wf md q r s.
Proof.
  intros E.
  destruct md; cbn in E; injection E as <-;
    (constructor; [split; reflexivity | | | | reflexivity | reflexivity ]);
    try constructor; cbn;
    try (split; [reflexivity | repeat constructor]).
  all: try reflexivity; repeat constructor.
Qed.

(** [set_q_r] assigns the two scaled identities and nothing else. *)
Lemma set_q_r_mode md q' r' (s : Stabilizer R) :
  measure_num s = Z.of_nat (mode_m md) ->
  set_q_r q' r' s =
    set_filter
      (Kalman.set_measurementNoiseCov (scale (eye (mode_m md)) r')
        (Kalman.set_processNoiseCov (scale (eye (mode_n md)) q')
          (filter s)))
      s.
Proof.
  intros Hm. unfold set_q_r. rewrite Hm. destruct md; reflexivity.
Qed.

Lemma set_q_r_wf md q r q' r' s :
  stabilizer_wf md q r s -> stabilizer_wf md q' r' (set_q_r q' r' s).
Proof.
  intros [[Hn Hm] Wk Ws Wp _ _]. destruct Wk.
  rewrite (set_q_r_mode md q' r' s Hm).
  constructor; cbn; try assumption; try reflexivity.
  - split; assumption.
  - constructor; cbn; try assumption; apply scale_shape, eye_shape.
Qed.

Lemma update_wf md q r s z :
  stabilizer_wf md q r s ->
  stabilizer_wf md q r (snd (update solve_svd z s)).
Proof.
  intros W. pose proof W as [[Hn Hm] Wk Ws Wp WQ WR].
  destruct (predict_spec Wk (mode_n_pos md)) as (p & P' & Ep & Hp & HP' & E).
  assert (Wk1 : kalman_wf (mode_n md) (mode_m md)
                  (Kalman.mk p p (Kalman.transitionMatrix (filter s))
                     (Kalman.measurementMatrix (filter s))
                     (Kalman.processNoiseCov (filter s))
                     (Kalman.measurementNoiseCov (filter s)) P'
                     (Kalman.gain (filter s)) P')).
  { destruct Wk. constructor; cbn; assumption. }
  destruct (Nat.lt_ge_cases (length z) (mode_m md)) as [Hz|Hz].
  - rewrite (update_short md s z Hm Hz E). cbn.
    constructor; cbn; try assumption. split; assumption.
  - rewrite (update_long md s z Hm Hz E).
    destruct (correct_spec solve_svd Wk1 (pack_shape md z Hz)
                (mode_n_pos md) (mode_m_pos md))
      as (temp2 & S & _ & _ & Hc).
    destruct (solve_svd S temp2) as [sol|e].
    + cbn zeta in Hc.
      destruct Hc as (Hx & y & Ky & x & P & _ & _ & _ & _ & Hxs & HPs
                      & HK & ->).
      cbn. constructor; cbn; try assumption.
      * split; assumption.
      * destruct Wk. constructor; cbn; assumption.
    + rewrite Hc. cbn. constructor; cbn; try assumption.
      split; assumption.
Qed.

(** With a solver that returns, [update] returns on every measurement
    with enough components. *)
Lemma update_returns md q r s z :
  stabilizer_wf md q r s ->
  mode_m md <= length z ->
  solver_total solve_svd ->
  fst (update solve_svd z s) = Ok tt.
Proof.
  intros [[Hn Hm] Wk Ws Wp WQ WR] Hz Ht.
  destruct (predict_spec Wk (mode_n_pos md)) as (p & P' & Ep & Hp & HP' & E).
  set (k1 := Kalman.mk p p _ _ _ _ P' _ P') in E.
  assert (Wk1 : kalman_wf (mode_n md) (mode_m md) k1).
  { destruct Wk. constructor; cbn; assumption. }
  rewrite (update_long md s z Hm Hz E).
  destruct (correct_spec solve_svd Wk1 (pack_shape md z Hz)
              (mode_n_pos md) (mode_m_pos md))
    as (temp2 & S & _ & _ & Hc).
  destruct (Ht S temp2) as (sol & Es). rewrite Es in Hc. cbn zeta in Hc.
  destruct Hc as (_ & _ & _ & x & P & _ & _ & _ & _ & _ & _ & _ & ->).
  reflexivity.
Qed.

Lemma reachable_wf md q r s :
  reachable solve_svd errorCov0 md q r s -> stabilizer_wf md q r s.
Proof.
  induction 1 as [q r s E | q r s z _ IH | q r q' r' s _ IH].
  - now apply init_wf.
  - now apply update_wf.
  - eapply set_q_r_wf; eassumption.
Qed.
End UpdateLemmas.

(* ------------------------------------------------------------------ *)
(** ** Construction *)

Section Construction.
Context {R : Type} {F32 : Float32 R}.
Variable solve_svd : matrix R -> matrix R -> result (nat -> nat -> R).
Variable errorCov0 : nat -> nat -> R.

(** In the point configuration the measurement matrix selects the two
    position components. *)
Lemma point_measurementMatrix_selects_position q r :
  exists s,
    __init__ errorCov0 4 2 q r = Ok s
    /\ selects_position 2 4 (Kalman.measurementMatrix (filter s)).
Proof. eexists. split; reflexivity. Qed.

(** In the scalar configuration the source assigns [[1, 1]]. *)
Lemma scalar_measurementMatrix_literal q r :
  exists s,
    __init__ errorCov0 2 1 q r = Ok s
    /\ Kalman.measurementMatrix (filter s) = [[f1; f1]].
Proof. eexists. split; reflexivity. Qed.

(** The filter constructor never raises the assertion. *)
Lemma create_not_assertion dp mp cp :
  Kalman.create errorCov0 dp mp cp <> Raise AssertionError.
Proof.
  unfold Kalman.create.
  destruct (negb _); [discriminate|]. destruct (_ && _); discriminate.
Qed.

(** The assertion looks at [state_num] only. *)
Lemma init_assertion sn mn q r :
  __init__ errorCov0 sn mn q r = Raise AssertionError
  <-> (sn <> 4 /\ sn <> 2)%Z.
Proof.
  unfold __init__.
  destruct (Z.eqb_spec sn 4) as [->|H4]; cbn -[Kalman.create].
  - split; [|intros [? _]; congruence].
    pose proof (create_not_assertion 4 mn 0) as Hc.
    destruct (Kalman.create errorCov0 4 mn 0); [discriminate|].
    intros E. exfalso. apply Hc. now injection E as ->.
  - destruct (Z.eqb_spec sn 2) as [->|H2]; cbn -[Kalman.create].
    + split; [|intros [_ ?]; congruence].
      pose proof (create_not_assertion 2 mn 0) as Hc.
      destruct (Kalman.create errorCov0 2 mn 0); [discriminate|].
      intros E. exfalso. apply Hc. now injection E as ->.
    + split; auto.
Qed.

(** Construction with a supported [state_num] and a positive
    [measure_num] that is a C [int]: what the constructor of the model
    returns. *)
Lemma init_returns sn mn q r :
  (sn = 2 \/ sn = 4)%Z -> (0 < mn < 2147483648)%Z ->
  exists s,
    __init__ errorCov0 sn mn q r = Ok s
    /\ state_num s = sn /\ measure_num s = mn
    /\ Kalman.statePost (filter s) = zeros (Z.to_nat sn) 1
    /\ (mn <> 1 -> mn <> 2 ->
        Kalman.transitionMatrix (filter s) = eye (Z.to_nat sn)
        /\ Kalman.measurementMatrix (filter s)
           = zeros (Z.to_nat mn) (Z.to_nat sn)
        /\ Kalman.processNoiseCov (filter s) = eye (Z.to_nat sn)
        /\ Kalman.measurementNoiseCov (filter s) = eye (Z.to_nat mn))%Z.
Proof.
  intros Hsn Hmn. unfold __init__, Kalman.create.
  assert (Hc : negb (Z.eqb sn 4 || Z.eqb sn 2) = false)
    by (destruct Hsn as [-> | ->]; reflexivity).
  assert (Hi : negb (Kalman.c_int sn && Kalman.c_int mn && Kalman.c_int 0)
               = false).
  { assert (Hm : Kalman.c_int mn = true).
    { unfold Kalman.c_int. apply andb_true_iff.
      split; [apply Z.leb_le | apply Z.ltb_lt]; lia. }
    rewrite Hm. destruct Hsn as [-> | ->]; reflexivity. }
  assert (Hp : Z.ltb 0 sn && Z.ltb 0 mn = true).
  { apply andb_true_iff. split; apply Z.ltb_lt; [|lia].
    destruct Hsn as [-> | ->]; lia. }
  rewrite Hc, Hi, Hp. cbn -[zeros eye build].
  destruct (Z.eqb_spec mn 1) as [E1|H1]; cbn -[zeros eye build];
    destruct (Z.eqb_spec mn 2) as [E2|H2];
    try (exfalso; lia);
    eexists; (split; [reflexivity|]); cbn -[zeros eye build];
    (split; [reflexivity|]); (split; [reflexivity|]);
    (split; [reflexivity|]); intros; try contradiction;
    repeat split; reflexivity.
Qed.

(** What a returning construction tells: the dimensions it was given and
    the fields of the object. *)
Lemma init_ok_fields sn mn q r s :
  __init__ errorCov0 sn mn q r = Ok s ->
  (sn = 2 \/ sn = 4)%Z /\ (0 < mn < 2147483648)%Z
  /\ state_num s = sn /\ measure_num s = mn
  /\ state s = zeros (Z.to_nat sn) 1
  /\ prediction s = zeros (Z.to_nat sn) 1
  /\ measurement s = A1 [of_int mn; f1]
  /\ Kalman.statePost (filter s) = zeros (Z.to_nat sn) 1.
Proof.
  intros E. unfold __init__, Kalman.create in E.
  assert (Hsn : (sn = 2 \/ sn = 4)%Z).
  { destruct (Z.eqb_spec sn 4); [auto|]. destruct (Z.eqb_spec sn 2); [auto|].
    discriminate E. }
  destruct (negb (Z.eqb sn 4 || Z.eqb sn 2)); [discriminate E|].
  destruct (negb (Kalman.c_int sn && Kalman.c_int mn && Kalman.c_int 0))
    eqn:Hi; [discriminate E|].
  destruct (Z.ltb 0 sn && Z.ltb 0 mn) eqn:Hp; [|discriminate E].
  assert (Hb : (0 < mn < 2147483648)%Z).
  { apply negb_false_iff in Hi. apply andb_true_iff in Hi as [Hi _].
    apply andb_true_iff in Hi as [_ Hi]. unfold Kalman.c_int in Hi.
    apply andb_true_iff in Hi as [_ Hi]. apply Z.ltb_lt in Hi.
    apply andb_true_iff in Hp as [_ Hp]. apply Z.ltb_lt in Hp. lia. }
  cbn -[zeros eye build] in E.
  destruct (Z.eqb mn 1); cbn -[zeros eye build] in E;
    destruct (Z.eqb mn 2); injection E as <-; cbn -[zeros eye build];
    repeat split; try assumption; apply Hb.
Qed.
End Construction.

(* ------------------------------------------------------------------ *)
(** ** The measurement matrix and the checks of the constructor *)

(** C1 (the code departs from it): the measurement matrix is claimed to
    select the position, [[1, 0]] in the scalar configuration.  The
    constructor called with [state_num = 2], [measure_num = 1] assigns
    [[1, 1]]: H is not the position selector, and applied to the state
    (position 3, velocity 4) it returns 7, their sum, not the position 3.
    The point configuration does select the position
    ([point_measurementMatrix_selects_position]). *)
Theorem scalar_measurementMatrix_adds_velocity :
  exists s,
    Run.init 2 1 Run.cov_process Run.cov_measure = Ok s
    /\ Kalman.measurementMatrix (filter s) = [[B32.one; B32.one]]
    /\ ~ selects_position 1 2 (Kalman.measurementMatrix (filter s))
    /\ mat_mul (Kalman.measurementMatrix (filter s))
               [[Run.num 3]; [Run.num 4]]
       = Ok [[Run.num 7]].
Proof.
  eexists. split; [reflexivity|]. split; [reflexivity|].
  split; [|reflexivity].
  unfold selects_position. cbn. intros E. discriminate E.
Qed.

(** C2, as stated, fails: the pair (4, 1) is outside the two supported
    configurations, and construction does not raise the assertion (it
    returns an instance). *)
Lemma init_accepts_state_4_measure_1 :
  ~ (Run.init 4 1 Run.cov_process Run.cov_measure = Raise AssertionError
     <-> ~ supported 4 1).
Proof.
  intros [_ H].
  assert (E : Run.init 4 1 Run.cov_process Run.cov_measure
              = Raise AssertionError).
  { apply H. intros [[E _] | [_ E]]; discriminate E. }
  discriminate E.
Qed.

(** C2 (amended): construction raises the assertion if and only if
    [state_num] is neither 4 nor 2, whatever [measure_num] is; so a 3-state
    or a 6-state request is rejected, and [state_num = 4] with
    [measure_num = 1] is not: it returns an instance, as [state_num = 2]
    with [measure_num = 2] does. *)
Theorem init_asserts_state_num_only
  {R : Type} {F32 : Float32 R} (errorCov0 : nat -> nat -> R)
  (sn mn : Z) (q r : R) :
  (__init__ errorCov0 sn mn q r = Raise AssertionError
   <-> (sn <> 4 /\ sn <> 2)%Z)
  /\ __init__ errorCov0 3 mn q r = Raise AssertionError
  /\ __init__ errorCov0 6 mn q r = Raise AssertionError
  /\ __init__ errorCov0 4 1 q r <> Raise AssertionError
  /\ (exists s, __init__ errorCov0 4 1 q r = Ok s)
  /\ (exists s, __init__ errorCov0 2 2 q r = Ok s).
Proof.
  split; [apply init_assertion|].
  split; [reflexivity|]. split; [reflexivity|]. split; [discriminate|].
  split; eexists; reflexivity.
Qed.

(** C3, as stated, fails: with [state_num = 2] and [measure_num = 2] the
    constructor assigns 4x4 matrices F and Q to a filter of two states, and
    completes. *)
Lemma init_state_2_measure_2_completes :
  exists s,
    Run.init 2 2 Run.cov_process Run.cov_measure = Ok s
    /\ consistent s = false
    /\ rows (Kalman.transitionMatrix (filter s)) = 4
    /\ rows (Kalman.statePost (filter s)) = 2.
Proof. eexists. repeat split; reflexivity. Qed.

(** C3 (amended): the constructor checks no sizes.  In the two
    constructions whose matrices do not fit the declared dimensions,
    [state_num = 2] with [measure_num = 2] (4x4 F and Q on two states) and
    [state_num = 4] with [measure_num = 1] (2x2 F and Q on four states),
    it completes; the misfit shows at the first [update], which fails with
    OpenCV's size error whatever the measurement. *)
Theorem init_completes_without_size_check
  {R : Type} {F32 : Float32 R}
  (solve_svd : matrix R -> matrix R -> result (nat -> nat -> R))
  (errorCov0 : nat -> nat -> R) (sn mn : Z) (q r : R) :
  ((sn = 2 /\ mn = 2) \/ (sn = 4 /\ mn = 1))%Z ->
  exists s,
    __init__ errorCov0 sn mn q r = Ok s
    /\ consistent s = false
    /\ forall z, fst (update solve_svd z s) = Raise cv2_error.
Proof.
  intros [[-> ->] | [-> ->]]; eexists;
    (split; [reflexivity|]); (split; [reflexivity|]);
    intros z; erewrite update_predict_raises; reflexivity.
Qed.

Lemma init_completes_without_size_check_witness :
  ((2 = 2 /\ 2 = 2) \/ (2 = 4 /\ 2 = 1))%Z
  /\ exists s,
       Run.init 2 2 Run.cov_process Run.cov_measure = Ok s
       /\ consistent s = false
       /\ forall z, fst (Run.step z s) = Raise cv2_error.
Proof.
  assert (H : ((2 = 2 /\ 2 = 2) \/ (2 = 4 /\ 2 = 1))%Z)
    by (left; split; reflexivity).
  split; [exact H|].
  exact (init_completes_without_size_check Run.solve_direct Run.zero_cov
           Run.cov_process Run.cov_measure H).
Defined.

(* ------------------------------------------------------------------ *)
(** ** [update] and [set_q_r] on the reachable states *)

Section Operations.
Context {R : Type} {F32 : Float32 R}.
Variable solve_svd : matrix R -> matrix R -> result (nat -> nat -> R).
Variable errorCov0 : nat -> nat -> R.

(** C4: on a reachable instance and a measurement with (at least) the
    components of the mode, [update] first runs [predict], which returns
    the a priori state [F x], and stores it as [prediction]; it packs the
    measurement into an m x 1 vector; it runs [correct] on that vector,
    and when [correct] returns (it does whenever the solver does) the
    a posteriori state [x' + K (z - H x')] is stored as [state].  When
    [correct] raises, [update] raises with the prediction stored and the
    state kept. *)
Theorem update_predicts_then_corrects md q r s z :
  reachable solve_svd errorCov0 md q r s ->
  mode_m md <= length z ->
  exists p k1,
    Kalman.predict (filter s) = (Ok p, k1)
    /\ mat_mul (Kalman.transitionMatrix (filter s))
               (Kalman.statePost (filter s)) = Ok p
    /\ Kalman.statePre k1 = p
    /\ has_shape (mode_m md) 1 (pack md z)
    /\ (forall x k2,
          Kalman.correct solve_svd (pack md z) k1 = (Ok x, k2) ->
          update solve_svd z s =
            (Ok tt,
             mkStabilizer (state_num s) (measure_num s) k2 x
                          (A2 (pack md z)) p)
          /\ x = Kalman.statePost k2
          /\ exists Hp y Ky,
               mat_mul (Kalman.measurementMatrix k1) p = Ok Hp
               /\ mat_sub (pack md z) Hp = Ok y
               /\ mat_mul (Kalman.gain k2) y = Ok Ky
               /\ mat_add p Ky = Ok x)
    /\ (forall e k2,
          Kalman.correct solve_svd (pack md z) k1 = (Raise e, k2) ->
          update solve_svd z s =
            (Raise e,
             mkStabilizer (state_num s) (measure_num s) k2 (state s)
                          (A2 (pack md z)) p))
    /\ (solver_total solve_svd ->
        exists x k2,
          Kalman.correct solve_svd (pack md z) k1 = (Ok x, k2)).
Proof.
  intros Hs Hz. apply reachable_wf in Hs.
  destruct Hs as [[Hn Hm] Wk Ws Wp WQ WR].
  destruct (predict_spec Wk (mode_n_pos md)) as (p & P' & Ep & Hp & HP' & E).
  set (k1 := Kalman.mk p p _ _ _ _ P' _ P') in E.
  assert (Wk1 : kalman_wf (mode_n md) (mode_m md) k1).
  { destruct Wk. constructor; cbn; assumption. }
  exists p, k1. split; [assumption|]. split; [assumption|].
  split; [reflexivity|]. split; [now apply pack_shape|].
  pose proof (update_long solve_svd md s z Hm Hz E) as U.
  destruct (correct_spec solve_svd Wk1 (pack_shape md z Hz)
              (mode_n_pos md) (mode_m_pos md))
    as (temp2 & S & _ & _ & Hc).
  split; [|split].
  - intros x k2 Ec. rewrite Ec in U.
    destruct (solve_svd S temp2) as [sol|e].
    + cbn zeta in Hc.
      destruct Hc as (Hx & y & Ky & x' & P & E1 & E2 & E3 & E4 & _ & _ & _
                      & Ec').
      rewrite Ec in Ec'. injection Ec' as -> ->.
      split; [exact U|]. split; [reflexivity|].
      exists Hx, y, Ky. repeat split; assumption.
    + rewrite Ec in Hc. discriminate Hc.
  - intros e k2 Ec. now rewrite Ec in U.
  - intros Ht. destruct (Ht S temp2) as (sol & Es). rewrite Es in Hc.
    cbn zeta in Hc.
    destruct Hc as (_ & _ & _ & x & P & _ & _ & _ & _ & _ & _ & _ & Ec).
    eauto.
Qed.

(** C5: [set_q_r] replaces Q by [processCov * I_n] and R by
    [measureCov * I_m] and leaves everything else as it was: F, H, the
    state vector and the error covariance (a priori and a posteriori),
    the gain, and the fields of the object. *)
Theorem set_q_r_replaces_noise_only md q' r' (s : Stabilizer R) :
  in_mode md s ->
  Kalman.processNoiseCov (filter (set_q_r q' r' s))
  = scale (eye (mode_n md)) q'
  /\ Kalman.measurementNoiseCov (filter (set_q_r q' r' s))
     = scale (eye (mode_m md)) r'
  /\ Kalman.transitionMatrix (filter (set_q_r q' r' s))
     = Kalman.transitionMatrix (filter s)
  /\ Kalman.measurementMatrix (filter (set_q_r q' r' s))
     = Kalman.measurementMatrix (filter s)
  /\ Kalman.statePost (filter (set_q_r q' r' s))
     = Kalman.statePost (filter s)
  /\ Kalman.statePre (filter (set_q_r q' r' s))
     = Kalman.statePre (filter s)
  /\ Kalman.errorCovPost (filter (set_q_r q' r' s))
     = Kalman.errorCovPost (filter s)
  /\ Kalman.errorCovPre (filter (set_q_r q' r' s))
     = Kalman.errorCovPre (filter s)
  /\ Kalman.gain (filter (set_q_r q' r' s)) = Kalman.gain (filter s)
  /\ state_num (set_q_r q' r' s) = state_num s
  /\ measure_num (set_q_r q' r' s) = measure_num s
  /\ state (set_q_r q' r' s) = state s
  /\ measurement (set_q_r q' r' s) = measurement s
  /\ prediction (set_q_r q' r' s) = prediction s.
Proof.
  intros [_ Hm]. rewrite (set_q_r_mode md q' r' s Hm).
  repeat split; reflexivity.
Qed.

(** The diagonal of a scaled identity. *)
Lemma positive_diagonal_scale_eye md (c : R) :
  positive_diagonal (scale (eye (mode_n md)) c) = fltb f0 (fmul f1 c)
  /\ positive_diagonal (scale (eye (mode_m md)) c) = fltb f0 (fmul f1 c).
Proof.
  destruct md; cbn; destruct (fltb f0 (fmul f1 c)); split; reflexivity.
Qed.

(** C6 (amended): in every reachable state Q and R are the identity
    scaled by the noise scalars passed last, to the constructor or to
    [set_q_r]; no operation rejects a scalar, and the diagonals are
    positive exactly when those scalars (times one) are. *)
Theorem noise_is_last_scalars_times_identity md q r s :
  reachable solve_svd errorCov0 md q r s ->
  Kalman.processNoiseCov (filter s) = scale (eye (mode_n md)) q
  /\ Kalman.measurementNoiseCov (filter s) = scale (eye (mode_m md)) r
  /\ positive_diagonal (Kalman.processNoiseCov (filter s))
     = fltb f0 (fmul f1 q)
  /\ positive_diagonal (Kalman.measurementNoiseCov (filter s))
     = fltb f0 (fmul f1 r).
Proof.
  intros Hs. apply reachable_wf in Hs. destruct Hs as [_ _ _ _ WQ WR].
  rewrite WQ, WR. repeat split.
  - apply positive_diagonal_scale_eye.
  - apply positive_diagonal_scale_eye.
Qed.
End Operations.

Section Observations.
Context {R : Type} {F32 : Float32 R}.
Variable solve_svd : matrix R -> matrix R -> result (nat -> nat -> R).
Variable errorCov0 : nat -> nat -> R.

(** The transition matrices applied to the zero state, in an arithmetic
    where [1 * 0 = 0], [0 * 0 = 0] and [0 + 0 = 0]. *)
Lemma transition_of_zero md :
  fmul f1 f0 = f0 -> fmul f0 f0 = f0 -> fadd f0 f0 = f0 ->
  mat_mul (match md with Scalar => lit_F2 | Point2D => lit_F4 end)
          (zeros (mode_n md) 1)
  = Ok (zeros (mode_n md) 1).
Proof.
  intros H10 H00 Hadd.
  destruct md; cbn; unfold dot; cbn; now rewrite ?H10, ?H00, ?Hadd.
Qed.

(** C7: in either mode and for any noise scalars, [predict()] called on
    the filter of a fresh instance returns the zero vector of length [n]
    (in an arithmetic where [1 * 0 = 0], [0 * 0 = 0] and [0 + 0 = 0], as
    in IEEE single precision). *)
Theorem predict_after_init_is_zero md q r :
  fmul f1 f0 = f0 -> fmul f0 f0 = f0 -> fadd f0 f0 = f0 ->
  exists s,
    __init__ errorCov0 (Z.of_nat (mode_n md)) (Z.of_nat (mode_m md)) q r
    = Ok s
    /\ fst (Kalman.predict (filter s)) = Ok (zeros (mode_n md) 1)
    /\ has_shape (mode_n md) 1 (zeros (mode_n md) 1).
Proof.
  intros H10 H00 Hadd.
  destruct (init_mode errorCov0 md q r)
    as (s & E & _ & _ & _ & Ex & EF & _).
  exists s. split; [assumption|]. split; [|apply zeros_shape].
  pose proof (init_wf errorCov0 md q r E) as [_ Wk _ _ _ _].
  destruct (predict_spec Wk (mode_n_pos md)) as (p & P' & Ep & _ & _ & ->).
  cbn. rewrite EF, Ex, (transition_of_zero md H10 H00 Hadd) in Ep.
  now injection Ep as <-.
Qed.

(** C8 (amended): on a reachable instance, after any call of [update]
    the prediction and the state are vectors of length [n] (2 in scalar
    mode, 4 in point mode).  [update] raises [IndexError] on a measurement
    with fewer than [m] components; it accepts one with [m] components or
    more (it returns whenever the solver does) and ignores those beyond
    the first [m]. *)
Theorem update_sizes_and_short_measurements md q r s z :
  reachable solve_svd errorCov0 md q r s ->
  has_shape (mode_n md) 1 (prediction (snd (update solve_svd z s)))
  /\ has_shape (mode_n md) 1 (state (snd (update solve_svd z s)))
  /\ (length z < mode_m md ->
      fst (update solve_svd z s) = Raise IndexError)
  /\ (mode_m md <= length z ->
      update solve_svd z s = update solve_svd (firstn (mode_m md) z) s
      /\ (solver_total solve_svd -> fst (update solve_svd z s) = Ok tt)).
Proof.
  intros Hs.
  pose proof (update_wf solve_svd z (reachable_wf Hs)) as [_ _ Ws' Wp' _ _].
  split; [assumption|]. split; [assumption|].
  pose proof (reachable_wf Hs) as [[Hn Hm] Wk _ _ _ _].
  destruct (predict_spec Wk (mode_n_pos md)) as (p & P' & _ & _ & _ & E).
  split.
  - intros Hz. now rewrite (update_short solve_svd md s z Hm Hz E).
  - intros Hz. split.
    + assert (Hz' : mode_m md <= length (firstn (mode_m md) z))
        by (rewrite length_firstn; lia).
      rewrite (update_long solve_svd md s z Hm Hz E).
      rewrite (update_long solve_svd md s _ Hm Hz' E).
      unfold pack. now rewrite firstn_firstn, Nat.min_id.
    + intros Ht.
      eapply update_returns; eauto using reachable_wf.
Qed.

(** On a reachable state, [set_q_r] with the scalars passed last changes
    nothing. *)
Lemma set_q_r_current md q r s :
  reachable solve_svd errorCov0 md q r s -> set_q_r q r s = s.
Proof.
  intros Hs. apply reachable_wf in Hs.
  destruct Hs as [[_ Hm] _ _ _ WQ WR].
  rewrite (set_q_r_mode md q r s Hm), <- WQ, <- WR.
  destruct s as [sn mn k st ms pr]. destruct k. reflexivity.
Qed.

(** C9: on a reachable state, [set_q_r] with the current noise scalars
    (those passed last) followed by any sequence of [update] calls gives,
    call by call, the same outcome, prediction and state as the same
    sequence without it. *)
Theorem set_q_r_current_scalars_unobservable md q r s zs :
  reachable solve_svd errorCov0 md q r s ->
  run_updates solve_svd zs (set_q_r q r s) = run_updates solve_svd zs s
  /\ length (run_updates solve_svd zs s) = length zs.
Proof.
  intros Hs. rewrite (set_q_r_current Hs). split; [reflexivity|].
  clear Hs. revert s. induction zs as [|z zs IH]; intros s; cbn.
  - reflexivity.
  - destruct (update solve_svd z s) as [res s']. cbn. now rewrite IH.
Qed.

(** C10: with [measure_num = 1], [update] reads component 0 of the
    measurement and nothing else: two measurements that agree there (or
    are both empty) give the same outcome and the same object, whatever
    its state. *)
Theorem scalar_update_reads_first_component (s : Stabilizer R) z1 z2 :
  measure_num s = 1%Z ->
  nth_error z1 0 = nth_error z2 0 ->
  update solve_svd z1 s = update solve_svd z2 s.
Proof.
  intros Hm Hz. destruct s as [sn mn k st ms pr]. cbn in Hm. subst mn.
  assert (Hi : index z1 0 = index z2 0) by (unfold index; now rewrite Hz).
  unfold update, on_filter, bind, gets, lift, modify, ret.
  cbn [filter measure_num].
  destruct (Kalman.predict k) as [[p|e] k1]; [|reflexivity].
  cbn -[index]. now rewrite Hi.
Qed.
End Observations.

(* ------------------------------------------------------------------ *)
(** ** The theorems at concrete instances, in single precision *)

Lemma fresh_reachable md :
  reachable Run.solve_direct Run.zero_cov md Run.cov_process Run.cov_measure
            (Run.fresh md).
Proof. apply reach_init. destruct md; reflexivity. Defined.

Lemma solve_direct_total : solver_total Run.solve_direct.
Proof.
  intros A B. unfold Run.solve_direct.
  destruct A as [|[|a [|b [|? ?]]] [|[|c [|d [|? ?]]] [|? ?]]]; eauto.
Qed.

(** The first [update((10, 20))] of a fresh point instance returns, the
    prediction is the zero vector and the state is a vector of four rows.
    (The digits of the state depend on the solver and are not stated.) *)
Example point_first_update :
  let s := snd (Run.step [Run.num 10; Run.num 20] (Run.fresh Point2D)) in
  fst (Run.step [Run.num 10; Run.num 20] (Run.fresh Point2D)) = Ok tt
  /\ prediction s = zeros 4 1
  /\ rows (state s) = 4 /\ cols (state s) = 1.
Proof. vm_compute. repeat split; reflexivity. Qed.

(** A measurement without components on a fresh scalar instance: the call
    raises, after the prediction has been stored and the filter advanced. *)
Example scalar_empty_measurement :
  Run.step [] (Run.fresh Scalar)
  = (Raise IndexError,
     set_prediction (zeros 2 1)
       (set_filter (snd (Kalman.predict (filter (Run.fresh Scalar))))
          (Run.fresh Scalar))).
Proof. vm_compute. reflexivity. Qed.

Lemma update_predicts_then_corrects_witness :
  reachable Run.solve_direct Run.zero_cov Point2D Run.cov_process
            Run.cov_measure (Run.fresh Point2D)
  /\ mode_m Point2D <= length [Run.num 10; Run.num 20]
  /\ exists p k1,
       Kalman.predict (filter (Run.fresh Point2D)) = (Ok p, k1)
       /\ mat_mul (Kalman.transitionMatrix (filter (Run.fresh Point2D)))
                  (Kalman.statePost (filter (Run.fresh Point2D))) = Ok p
       /\ Kalman.statePre k1 = p
       /\ has_shape 2 1 (pack Point2D [Run.num 10; Run.num 20])
       /\ (forall x k2,
             Kalman.correct Run.solve_direct
               (pack Point2D [Run.num 10; Run.num 20]) k1 = (Ok x, k2) ->
             Run.step [Run.num 10; Run.num 20] (Run.fresh Point2D) =
               (Ok tt,
                mkStabilizer 4 2 k2 x
                  (A2 (pack Point2D [Run.num 10; Run.num 20])) p)
             /\ x = Kalman.statePost k2
             /\ exists Hp y Ky,
                  mat_mul (Kalman.measurementMatrix k1) p = Ok Hp
                  /\ mat_sub (pack Point2D [Run.num 10; Run.num 20]) Hp
                     = Ok y
                  /\ mat_mul (Kalman.gain k2) y = Ok Ky
                  /\ mat_add p Ky = Ok x)
       /\ (forall e k2,
             Kalman.correct Run.solve_direct
               (pack Point2D [Run.num 10; Run.num 20]) k1 = (Raise e, k2) ->
             Run.step [Run.num 10; Run.num 20] (Run.fresh Point2D) =
               (Raise e,
                mkStabilizer 4 2 k2 (state (Run.fresh Point2D))
                  (A2 (pack Point2D [Run.num 10; Run.num 20])) p))
       /\ (solver_total Run.solve_direct ->
           exists x k2,
             Kalman.correct Run.solve_direct
               (pack Point2D [Run.num 10; Run.num 20]) k1 = (Ok x, k2)).
Proof.
  split; [apply fresh_reachable|]. split; [cbn; lia|].
  apply (update_predicts_then_corrects [Run.num 10; Run.num 20]
           (fresh_reachable Point2D)).
  cbn; lia.
Defined.

Lemma set_q_r_replaces_noise_only_witness :
  in_mode Scalar (Run.fresh Scalar)
  /\ Kalman.processNoiseCov
       (filter (set_q_r (Run.num 2) (Run.num 3) (Run.fresh Scalar)))
     = scale (eye 2) (Run.num 2)
  /\ Kalman.measurementNoiseCov
       (filter (set_q_r (Run.num 2) (Run.num 3) (Run.fresh Scalar)))
     = scale (eye 1) (Run.num 3).
Proof.
  assert (H : in_mode Scalar (Run.fresh Scalar)) by (split; reflexivity).
  split; [exact H|].
  pose proof (set_q_r_replaces_noise_only (Run.num 2) (Run.num 3) H)
    as (HQ & HR & _).
  split; [exact HQ | exact HR].
Defined.

(** C6, as stated, fails: [set_q_r(-1, -1)] on a fresh scalar instance is
    accepted, and leaves Q and R with the diagonal entries -1. *)
Lemma noise_not_positive_after_negative_retune :
  reachable Run.solve_direct Run.zero_cov Scalar (Run.num (-1))
            (Run.num (-1)) Run.retuned_negative
  /\ positive_diagonal
       (Kalman.processNoiseCov (filter Run.retuned_negative)) = false
  /\ positive_diagonal
       (Kalman.measurementNoiseCov (filter Run.retuned_negative)) = false
  /\ diagonal (Kalman.measurementNoiseCov (filter Run.retuned_negative))
     = [Run.num (-1)].
Proof.
  split.
  - unfold Run.retuned_negative.
    apply (reach_set_q_r _ _ (fresh_reachable Scalar)).
  - repeat split; reflexivity.
Qed.

Lemma noise_is_last_scalars_times_identity_witness :
  reachable Run.solve_direct Run.zero_cov Scalar (Run.num (-1))
            (Run.num (-1)) Run.retuned_negative
  /\ Kalman.processNoiseCov (filter Run.retuned_negative)
     = scale (eye 2) (Run.num (-1))
  /\ Kalman.measurementNoiseCov (filter Run.retuned_negative)
     = scale (eye 1) (Run.num (-1))
  /\ positive_diagonal (Kalman.processNoiseCov (filter Run.retuned_negative))
     = B32.ltb B32.zero (B32.mul B32.one (Run.num (-1)))
  /\ positive_diagonal
       (Kalman.measurementNoiseCov (filter Run.retuned_negative))
     = B32.ltb B32.zero (B32.mul B32.one (Run.num (-1))).
Proof.
  assert (H : reachable Run.solve_direct Run.zero_cov Scalar (Run.num (-1))
                (Run.num (-1)) Run.retuned_negative).
  { unfold Run.retuned_negative.
    apply (reach_set_q_r _ _ (fresh_reachable Scalar)). }
  split; [exact H|].
  exact (noise_is_last_scalars_times_identity H).
Defined.

Lemma predict_after_init_is_zero_witness :
  B32.mul B32.one B32.zero = B32.zero
  /\ B32.mul B32.zero B32.zero = B32.zero
  /\ B32.add B32.zero B32.zero = B32.zero
  /\ exists s,
       Run.init 4 2 Run.cov_process Run.cov_measure = Ok s
       /\ fst (Kalman.predict (filter s)) = Ok (zeros 4 1)
       /\ has_shape 4 1 (zeros (R := B32.t) 4 1).
Proof.
  split; [reflexivity|]. split; [reflexivity|]. split; [reflexivity|].
  apply (predict_after_init_is_zero (F32 := binary32) Run.zero_cov Point2D
           Run.cov_process Run.cov_measure); reflexivity.
Defined.

(** C8, as stated, fails: in scalar mode a measurement of two components
    does not have the arity of the mode, and [update] accepts it. *)
Lemma scalar_update_accepts_two_components :
  reachable Run.solve_direct Run.zero_cov Scalar Run.cov_process
            Run.cov_measure (Run.fresh Scalar)
  /\ length [Run.num 5; Run.num 7] <> mode_m Scalar
  /\ fst (Run.step [Run.num 5; Run.num 7] (Run.fresh Scalar)) = Ok tt.
Proof.
  split; [apply fresh_reachable|]. split; [cbn; lia|].
  vm_compute. reflexivity.
Qed.

Lemma update_sizes_and_short_measurements_witness :
  reachable Run.solve_direct Run.zero_cov Scalar Run.cov_process
            Run.cov_measure (Run.fresh Scalar)
  /\ has_shape 2 1 (prediction (snd (Run.step [] (Run.fresh Scalar))))
  /\ has_shape 2 1 (state (snd (Run.step [] (Run.fresh Scalar))))
  /\ (length (A := B32.t) [] < 1 ->
      fst (Run.step [] (Run.fresh Scalar)) = Raise IndexError).
Proof.
  split; [apply fresh_reachable|].
  pose proof (update_sizes_and_short_measurements []
                (fresh_reachable Scalar)) as (Hp & Hs & Hshort & _).
  split; [exact Hp|]. split; [exact Hs | exact Hshort].
Defined.

Lemma set_q_r_current_scalars_unobservable_witness :
  reachable Run.solve_direct Run.zero_cov Scalar Run.cov_process
            Run.cov_measure (Run.fresh Scalar)
  /\ run_updates Run.solve_direct [[Run.num 5]; [Run.num 5]]
       (set_q_r Run.cov_process Run.cov_measure (Run.fresh Scalar))
     = run_updates Run.solve_direct [[Run.num 5]; [Run.num 5]]
         (Run.fresh Scalar)
  /\ length (run_updates Run.solve_direct [[Run.num 5]; [Run.num 5]]
               (Run.fresh Scalar)) = 2.
Proof.
  split; [apply fresh_reachable|].
  exact (set_q_r_current_scalars_unobservable [[Run.num 5]; [Run.num 5]]
           (fresh_reachable Scalar)).
Defined.

Lemma scalar_update_reads_first_component_witness :
  measure_num (Run.fresh Scalar) = 1%Z
  /\ nth_error [Run.num 5; Run.num 7] 0 = nth_error [Run.num 5] 0
  /\ Run.step [Run.num 5; Run.num 7] (Run.fresh Scalar)
     = Run.step [Run.num 5] (Run.fresh Scalar).
Proof.
  split; [reflexivity|]. split; [reflexivity|].
  apply (scalar_update_reads_first_component Run.solve_direct
           (Run.fresh Scalar) [Run.num 5; Run.num 7] [Run.num 5]);
    reflexivity.
Defined.

(* ------------------------------------------------------------------ *)
(** ** What the operations keep, on any object *)

Section Frames.
Context {R : Type} {F32 : Float32 R}.
Variable solve_svd : matrix R -> matrix R -> result (nat -> nat -> R).

Lemma predict_model (k : Kalman.KalmanFilter R) :
  same_model k (snd (Kalman.predict k))
  /\ Kalman.gain (snd (Kalman.predict k)) = Kalman.gain k.
Proof.
  unfold Kalman.predict, same_model. run_monad. split_result.
  all: repeat split; reflexivity.
Qed.

Lemma predict_ok (k : Kalman.KalmanFilter R) p k1 :
  Kalman.predict k = (Ok p, k1) ->
  mat_mul (Kalman.transitionMatrix k) (Kalman.statePost k) = Ok p
  /\ Kalman.statePre k1 = p /\ Kalman.statePost k1 = p.
Proof.
  unfold Kalman.predict. run_monad.
  destruct (mat_mul (Kalman.transitionMatrix k) (Kalman.statePost k))
    as [x'|e]; cbn; [|discriminate].
  split_result; intros E; try discriminate E.
  injection E as <- <-. repeat split; reflexivity.
Qed.

Lemma predict_mismatch (k : Kalman.KalmanFilter R) :
  Nat.eqb (cols (Kalman.transitionMatrix k)) (rows (Kalman.statePost k))
  = false ->
  Kalman.predict k = (Raise cv2_error, k).
Proof.
  intros H. unfold Kalman.predict. run_monad. unfold mat_mul. rewrite H.
  reflexivity.
Qed.

Lemma mat_mul_rows (A B C : matrix R) :
  mat_mul A B = Ok C -> rows C = rows A.
Proof.
  unfold mat_mul. destruct (Nat.eqb _ _); [|discriminate].
  intros E. injection E as <-. unfold rows. now rewrite length_map.
Qed.

Lemma mat_sub_rows (A B C : matrix R) :
  mat_sub A B = Ok C -> rows A = rows B.
Proof.
  unfold mat_sub, same_size.
  destruct (Nat.eqb_spec (rows A) (rows B)); cbn; [auto|discriminate].
Qed.

Lemma correct_model z (k : Kalman.KalmanFilter R) :
  same_model k (snd (Kalman.correct solve_svd z k))
  /\ Kalman.statePre (snd (Kalman.correct solve_svd z k)) = Kalman.statePre k.
Proof.
  unfold Kalman.correct, same_model. run_monad. split_result.
  all: repeat split; reflexivity.
Qed.

Lemma correct_ok z (k : Kalman.KalmanFilter R) x k2 :
  Kalman.correct solve_svd z k = (Ok x, k2) ->
  Kalman.statePost k2 = x /\ rows z = rows (Kalman.measurementMatrix k).
Proof.
  unfold Kalman.correct. run_monad.
  destruct (mat_mul (Kalman.measurementMatrix k) (Kalman.errorCovPre k));
    cbn; [|discriminate].
  destruct (gemm_2T _ _ _); cbn; [|discriminate].
  destruct (Kalman.solve _ _ _); cbn; [|discriminate].
  destruct (mat_mul (Kalman.measurementMatrix k) (Kalman.statePre k))
    as [Hx|] eqn:EHx; cbn; [|discriminate].
  destruct (mat_sub z Hx) as [y|] eqn:Ey; cbn; [|discriminate].
  split_result; intros E; try discriminate E.
  injection E as <- <-. split; [reflexivity|].
  rewrite (mat_sub_rows _ _ Ey). now apply mat_mul_rows in EHx.
Qed.

Lemma update_unfold (s : Stabilizer R) z :
  update solve_svd z s =
    match Kalman.predict (filter s) with
    | (Raise e, k1) => (Raise e, set_filter k1 s)
    | (Ok p, k1) =>
        match read_measurement (measure_num s) z with
        | Raise e =>
            (Raise e,
             mkStabilizer (state_num s) (measure_num s) k1 (state s)
                          (measurement s) p)
        | Ok zv =>
            match Kalman.correct solve_svd zv k1 with
            | (Ok _, k2) =>
                (Ok tt,
                 mkStabilizer (state_num s) (measure_num s) k2
                              (Kalman.statePost k2) (A2 zv) p)
            | (Raise e, k2) =>
                (Raise e,
                 mkStabilizer (state_num s) (measure_num s) k2 (state s)
                              (A2 zv) p)
            end
        end
    end.
Proof.
  destruct s as [sn mn k st ms pr].
  unfold update, on_filter, bind, gets, lift, modify, ret, read_measurement.
  cbn [filter measure_num state_num state measurement prediction].
  destruct (Kalman.predict k) as [[p|e] k1]; [|reflexivity].
  cbn -[index]. destruct (Z.eqb mn 1).
  - destruct (index z 0) as [z0|e]; cbn -[index]; [|reflexivity].
    destruct (Kalman.correct solve_svd [[z0]] k1) as [[x|e] k2]; reflexivity.
  - destruct (index z 0) as [z0|e]; cbn -[index]; [|reflexivity].
    destruct (index z 1) as [z1|e]; cbn -[index]; [|reflexivity].
    destruct (Kalman.correct solve_svd [[z0]; [z1]] k1) as [[x|e] k2];
      reflexivity.
Qed.

Lemma read_measurement_rows mn z (zv : matrix R) :
  read_measurement mn z = Ok zv ->
  rows zv = if Z.eqb mn 1 then 1 else 2.
Proof.
  unfold read_measurement. destruct (Z.eqb mn 1).
  - destruct (index z 0); [|discriminate]. now intros [= <-].
  - destruct (index z 0); [|discriminate].
    destruct (index z 1); [|discriminate]. now intros [= <-].
Qed.

Lemma same_model_trans (k1 k2 k3 : Kalman.KalmanFilter R) :
  same_model k1 k2 -> same_model k2 k3 -> same_model k1 k3.
Proof.
  unfold same_model. intros (A1 & A2 & A3 & A4) (B1 & B2 & B3 & B4).
  repeat split; congruence.
Qed.

Lemma same_model_refl (k : Kalman.KalmanFilter R) : same_model k k.
Proof. repeat split. Qed.

Lemma update_model (s : Stabilizer R) z :
  same_model (filter s) (filter (snd (update solve_svd z s)))
  /\ state_num (snd (update solve_svd z s)) = state_num s
  /\ measure_num (snd (update solve_svd z s)) = measure_num s.
Proof.
  rewrite update_unfold.
  pose proof (predict_model (filter s)) as [Hp _].
  destruct (Kalman.predict (filter s)) as [[p|e] k1]; cbn in Hp |- *;
    [|split; [exact Hp | split; reflexivity]].
  destruct (read_measurement (measure_num s) z) as [zv|e]; cbn;
    [|split; [exact Hp | split; reflexivity]].
  pose proof (correct_model zv k1) as [Hc _].
  destruct (Kalman.correct solve_svd zv k1) as [[x|e] k2]; cbn in Hc |- *;
    (split; [eapply same_model_trans; eassumption | split; reflexivity]).
Qed.

Lemma update_raise_state (s : Stabilizer R) z e :
  fst (update solve_svd z s) = Raise e ->
  state (snd (update solve_svd z s)) = state s.
Proof.
  rewrite update_unfold.
  destruct (Kalman.predict (filter s)) as [[p|e1] k1]; [|reflexivity].
  destruct (read_measurement (measure_num s) z) as [zv|e2]; [|reflexivity].
  destruct (Kalman.correct solve_svd zv k1) as [[x|e3] k2]; cbn;
    [discriminate | reflexivity].
Qed.

Lemma update_ok_inv (s : Stabilizer R) z :
  fst (update solve_svd z s) = Ok tt ->
  exists p k1 zv k2,
    Kalman.predict (filter s) = (Ok p, k1)
    /\ read_measurement (measure_num s) z = Ok zv
    /\ Kalman.correct solve_svd zv k1 = (Ok (Kalman.statePost k2), k2)
    /\ snd (update solve_svd z s) =
         mkStabilizer (state_num s) (measure_num s) k2
                      (Kalman.statePost k2) (A2 zv) p.
Proof.
  rewrite update_unfold.
  destruct (Kalman.predict (filter s)) as [[p|e1] k1]; [|discriminate].
  destruct (read_measurement (measure_num s) z) as [zv|e2]; [|discriminate].
  destruct (Kalman.correct solve_svd zv k1) as [[x|e3] k2] eqn:Ec; cbn;
    [|discriminate].
  intros _. exists p, k1, zv, k2.
  destruct (correct_ok _ _ Ec) as [<- _]. repeat split; assumption.
Qed.

Lemma update_stores_prediction (s : Stabilizer R) z p k1 :
  Kalman.predict (filter s) = (Ok p, k1) ->
  prediction (snd (update solve_svd z s)) = p.
Proof.
  intros E. rewrite update_unfold, E.
  destruct (read_measurement (measure_num s) z) as [zv|e2]; [|reflexivity].
  destruct (Kalman.correct solve_svd zv k1) as [[x|e3] k2]; reflexivity.
Qed.
End Frames.

(* ------------------------------------------------------------------ *)
(** ** Further properties of the class *)

Section FurtherProperties.
Context {R : Type} {F32 : Float32 R}.
Variable solve_svd : matrix R -> matrix R -> result (nat -> nat -> R).
Variable errorCov0 : nat -> nat -> R.

Lemma set_q_r_keeps (q r : R) (s : Stabilizer R) :
  Kalman.transitionMatrix (filter (set_q_r q r s))
  = Kalman.transitionMatrix (filter s)
  /\ Kalman.measurementMatrix (filter (set_q_r q r s))
     = Kalman.measurementMatrix (filter s)
  /\ Kalman.statePost (filter (set_q_r q r s)) = Kalman.statePost (filter s)
  /\ state_num (set_q_r q r s) = state_num s
  /\ measure_num (set_q_r q r s) = measure_num s
  /\ state (set_q_r q r s) = state s.
Proof.
  unfold set_q_r. destruct (Z.eqb (measure_num s) 1); repeat split.
Qed.

Lemma after_call_keeps (s : Stabilizer R) c :
  Kalman.transitionMatrix (filter (after_call solve_svd s c))
  = Kalman.transitionMatrix (filter s)
  /\ Kalman.measurementMatrix (filter (after_call solve_svd s c))
     = Kalman.measurementMatrix (filter s)
  /\ state_num (after_call solve_svd s c) = state_num s
  /\ measure_num (after_call solve_svd s c) = measure_num s.
Proof.
  destruct c as [z|q r]; cbn.
  - destruct (update_model solve_svd s z) as ((HF & HH & _) & Hn & Hm).
    auto.
  - destruct (set_q_r_keeps q r s) as (HF & HH & _ & Hn & Hm & _). auto.
Qed.

(** X1: no sequence of [update] and [set_q_r] calls, on any object, changes
    the transition matrix F, the measurement matrix H or the declared
    dimensions [state_num] and [measure_num]; and a call of [update],
    returning or raising, leaves the noise covariances Q and R as they
    were. *)
Theorem calls_keep_model (s : Stabilizer R) cs z :
  (Kalman.transitionMatrix (filter (after_calls solve_svd cs s))
   = Kalman.transitionMatrix (filter s)
   /\ Kalman.measurementMatrix (filter (after_calls solve_svd cs s))
      = Kalman.measurementMatrix (filter s)
   /\ state_num (after_calls solve_svd cs s) = state_num s
   /\ measure_num (after_calls solve_svd cs s) = measure_num s)
  /\ Kalman.processNoiseCov (filter (snd (update solve_svd z s)))
     = Kalman.processNoiseCov (filter s)
  /\ Kalman.measurementNoiseCov (filter (snd (update solve_svd z s)))
     = Kalman.measurementNoiseCov (filter s).
Proof.
  split.
  - unfold after_calls. revert s.
    induction cs as [|c cs IH]; intros s; cbn; [now repeat split|].
    destruct (IH (after_call solve_svd s c)) as (HF & HH & Hn & Hm).
    destruct (after_call_keeps s c) as (HF' & HH' & Hn' & Hm').
    repeat split; congruence.
  - destruct (update_model solve_svd s z) as ((_ & _ & HQ & HR) & _).
    auto.
Qed.

(** X2: in every state of an instance constructed in a supported mode, F
    and H are still the literals the constructor assigned (in scalar mode H
    stays [[1, 1]]), and the sizes of F, H, Q and R fit the declared
    dimensions. *)
Theorem reachable_model_matrices md q r s :
  reachable solve_svd errorCov0 md q r s ->
  Kalman.transitionMatrix (filter s)
  = match md with Scalar => lit_F2 | Point2D => lit_F4 end
  /\ Kalman.measurementMatrix (filter s)
     = match md with Scalar => lit_H2 | Point2D => lit_H4 end
  /\ consistent s = true.
Proof.
  intros Hs.
  assert (HFH : Kalman.transitionMatrix (filter s)
                = match md with Scalar => lit_F2 | Point2D => lit_F4 end
                /\ Kalman.measurementMatrix (filter s)
                   = match md with Scalar => lit_H2 | Point2D => lit_H4 end).
  { induction Hs as [q r s E | q r s z _ IH | q r q' r' s _ IH].
    - destruct md; cbn in E; injection E as <-; split; reflexivity.
    - destruct (update_model solve_svd s z) as ((HF & HH & _) & _).
      destruct IH. split; congruence.
    - destruct (set_q_r_keeps q' r' s) as (HF & HH & _).
      destruct IH. split; congruence. }
  destruct HFH as [HF HH]. split; [assumption|]. split; [assumption|].
  pose proof (reachable_wf Hs) as [[Hn Hm] Wk _ _ _ _].
  destruct Wk as [_ _ WF WH WQ WR _ _ _].
  unfold consistent. rewrite Hn, Hm, !Nat2Z.id.
  rewrite (size_is_shape WF (mode_n_pos md)).
  rewrite (size_is_shape WH (mode_m_pos md)).
  rewrite (size_is_shape WQ (mode_n_pos md)).
  rewrite (size_is_shape WR (mode_m_pos md)).
  reflexivity.
Qed.

(** X3: when [update] returns, on any object, the exposed fields mirror
    the filter: [state] is the filter's a posteriori state, [prediction] its
    a priori state, which is F times the state before the call, and
    [measurement] is the vector read from the argument, with as many rows as
    H has. *)
Theorem update_ok_exposes_filter_states (s : Stabilizer R) z :
  fst (update solve_svd z s) = Ok tt ->
  state (snd (update solve_svd z s))
  = Kalman.statePost (filter (snd (update solve_svd z s)))
  /\ prediction (snd (update solve_svd z s))
     = Kalman.statePre (filter (snd (update solve_svd z s)))
  /\ mat_mul (Kalman.transitionMatrix (filter s))
             (Kalman.statePost (filter s))
     = Ok (prediction (snd (update solve_svd z s)))
  /\ exists zv,
       measurement (snd (update solve_svd z s)) = A2 zv
       /\ read_measurement (measure_num s) z = Ok zv
       /\ rows zv = rows (Kalman.measurementMatrix (filter s)).
Proof.
  intros Hok.
  destruct (update_ok_inv solve_svd s z Hok)
    as (p & k1 & zv & k2 & Ep & Ez & Ec & ->). cbn.
  destruct (predict_ok _ Ep) as (Em & Hpre & _).
  pose proof (correct_model solve_svd zv k1) as [_ Hc].
  rewrite Ec in Hc. cbn in Hc.
  pose proof (predict_model (filter s)) as [(_ & HH & _) _].
  rewrite Ep in HH. cbn in HH.
  destruct (correct_ok _ _ _ Ec) as [_ Hr].
  split; [reflexivity|]. split; [congruence|]. split; [assumption|].
  exists zv. repeat split; congruence.
Qed.

(** X4: when [update] raises, on any object, [state] is what it was
    before the call.  Either [predict] raised, and [prediction] and
    [measurement] are unchanged too; or the prediction has been stored and
    reading the measurement raised, [measurement] being unchanged; or the
    measurement has been stored as well and [correct] raised. *)
Theorem update_raise_keeps_state (s : Stabilizer R) z e :
  fst (update solve_svd z s) = Raise e ->
  state (snd (update solve_svd z s)) = state s
  /\ ((fst (Kalman.predict (filter s)) = Raise e
       /\ prediction (snd (update solve_svd z s)) = prediction s
       /\ measurement (snd (update solve_svd z s)) = measurement s)
      \/ (exists p,
            fst (Kalman.predict (filter s)) = Ok p
            /\ prediction (snd (update solve_svd z s)) = p
            /\ ((read_measurement (measure_num s) z = Raise e
                 /\ measurement (snd (update solve_svd z s))
                    = measurement s)
                \/ (exists zv,
                      read_measurement (measure_num s) z = Ok zv
                      /\ measurement (snd (update solve_svd z s)) = A2 zv
                      /\ fst (Kalman.correct solve_svd zv
                                (snd (Kalman.predict (filter s))))
                         = Raise e)))).
Proof.
  intros He. split; [now apply update_raise_state with (e := e)|].
  revert He. rewrite update_unfold.
  destruct (Kalman.predict (filter s)) as [[p|e1] k1]; cbn.
  - intros He. right. exists p. split; [reflexivity|].
    destruct (read_measurement (measure_num s) z) as [zv|e2]; cbn in *.
    + destruct (Kalman.correct solve_svd zv k1) as [[x|e3] k2] eqn:Ec;
        cbn in *; [discriminate|].
      split; [reflexivity|]. right. exists zv. rewrite Ec.
      injection He as ->. repeat split.
    + injection He as ->. split; [reflexivity|]. left. split; reflexivity.
  - intros He. injection He as ->. left. repeat split.
Qed.

(** X5: a rejected measurement is not rolled back.  On a reachable
    instance [update] with too few components raises [IndexError] after
    [predict] has run: the prediction F x is stored and is the filter's
    current state, while [state] and [measurement] keep their values. *)
Theorem update_short_advances_filter md q r s z :
  reachable solve_svd errorCov0 md q r s ->
  length z < mode_m md ->
  exists p,
    mat_mul (Kalman.transitionMatrix (filter s))
            (Kalman.statePost (filter s)) = Ok p
    /\ fst (update solve_svd z s) = Raise IndexError
    /\ prediction (snd (update solve_svd z s)) = p
    /\ Kalman.statePost (filter (snd (update solve_svd z s))) = p
    /\ state (snd (update solve_svd z s)) = state s
    /\ measurement (snd (update solve_svd z s)) = measurement s.
Proof.
  intros Hs Hz. pose proof (reachable_wf Hs) as [[Hn Hm] Wk _ _ _ _].
  destruct (predict_spec Wk (mode_n_pos md)) as (p & P' & Ep & _ & _ & E).
  exists p. split; [assumption|].
  rewrite (update_short solve_svd md s z Hm Hz E). repeat split.
Qed.

(** X6: of two consecutive calls of [set_q_r] the last one wins, on any
    object. *)
Theorem set_q_r_last_wins (q1 r1 q2 r2 : R) (s : Stabilizer R) :
  set_q_r q2 r2 (set_q_r q1 r1 s) = set_q_r q2 r2 s.
Proof.
  unfold set_q_r at 1 3.
  destruct (set_q_r_keeps q1 r1 s) as (_ & _ & _ & _ & -> & _).
  unfold set_q_r. destruct (Z.eqb (measure_num s) 1); reflexivity.
Qed.

(** X7: retuning does not change the next prediction.  On a reachable
    instance the prediction stored by [update] is the same whether or not
    [set_q_r] was called, with any scalars, just before. *)
Theorem retune_keeps_next_prediction md q r q' r' s z :
  reachable solve_svd errorCov0 md q r s ->
  prediction (snd (update solve_svd z (set_q_r q' r' s)))
  = prediction (snd (update solve_svd z s)).
Proof.
  intros Hs.
  pose proof (reach_set_q_r q' r' Hs) as Hs'.
  pose proof (reachable_wf Hs) as [_ Wk _ _ _ _].
  pose proof (reachable_wf Hs') as [_ Wk' _ _ _ _].
  destruct (predict_spec Wk (mode_n_pos md)) as (p & P1 & Ep & _ & _ & E).
  destruct (predict_spec Wk' (mode_n_pos md)) as (p' & P2 & Ep' & _ & _ & E').
  destruct (set_q_r_keeps q' r' s) as (HF & _ & Hx & _).
  rewrite HF, Hx, Ep in Ep'. injection Ep' as <-.
  now rewrite (update_stores_prediction solve_svd _ z E'),
    (update_stores_prediction solve_svd _ z E).
Qed.

(** X8: when [measure_num] is not 1, [update] reads components 0 and 1 of
    its argument and nothing else: two measurements that agree there (or
    lack the same one) give the same outcome and the same object. *)
Theorem point_update_reads_two_components (s : Stabilizer R) z1 z2 :
  measure_num s <> 1%Z ->
  nth_error z1 0 = nth_error z2 0 ->
  nth_error z1 1 = nth_error z2 1 ->
  update solve_svd z1 s = update solve_svd z2 s.
Proof.
  intros Hm H0 H1. rewrite !update_unfold.
  assert (E : read_measurement (measure_num s) z1
              = read_measurement (measure_num s) z2).
  { unfold read_measurement, index. now rewrite H0, H1. }
  now rewrite E.
Qed.

(** X9: the outcomes of the constructor.  A [state_num] other than 4 and 2
    fails the assertion, whatever [measure_num] is: the assertion comes
    first.  With [state_num] 4 or 2, a [measure_num] that is not positive
    makes the filter constructor fail, which is not the assertion (the
    caller sees a [SystemError]).  And whenever construction returns,
    [state_num] is 4 or 2, [measure_num] is positive and a C [int], and the
    object holds the two arguments, a zero state and prediction of
    [state_num] rows, and the array [(measure_num, 1)] as measurement. *)
Theorem init_outcomes (sn mn : Z) (q r : R) :
  ((sn <> 4 /\ sn <> 2)%Z ->
   __init__ errorCov0 sn mn q r = Raise AssertionError)
  /\ ((sn = 4 \/ sn = 2)%Z -> (-2147483648 <= mn <= 0)%Z ->
      __init__ errorCov0 sn mn q r = Raise SystemError)
  /\ (forall s,
        __init__ errorCov0 sn mn q r = Ok s ->
        (sn = 2 \/ sn = 4)%Z /\ (0 < mn < 2147483648)%Z
        /\ state_num s = sn /\ measure_num s = mn
        /\ state s = zeros (Z.to_nat sn) 1
        /\ prediction s = zeros (Z.to_nat sn) 1
        /\ measurement s = A1 [of_int mn; f1]
        /\ Kalman.statePost (filter s) = zeros (Z.to_nat sn) 1).
Proof.
  split; [|split].
  - intros H. now apply init_assertion.
  - intros Hsn Hmn. unfold __init__, Kalman.create.
    assert (Hc : negb (Z.eqb sn 4 || Z.eqb sn 2) = false)
      by (destruct Hsn as [-> | ->]; reflexivity).
    assert (Hi : negb (Kalman.c_int sn && Kalman.c_int mn && Kalman.c_int 0)
                 = false).
    { assert (Hm : Kalman.c_int mn = true).
      { unfold Kalman.c_int. apply andb_true_iff.
        split; [apply Z.leb_le | apply Z.ltb_lt]; lia. }
      rewrite Hm. destruct Hsn as [-> | ->]; reflexivity. }
    assert (Hp : Z.ltb 0 mn = false) by (apply Z.ltb_ge; lia).
    now rewrite Hc, Hi, Hp, andb_false_r.
  - intros s E. exact (init_ok_fields errorCov0 _ _ _ _ E).
Qed.

(** X10: when [measure_num] is neither 1 nor 2 neither branch of the
    constructor runs, and the noise arguments are ignored: construction
    gives the same result for any [cov_process] and [cov_measure]. *)
Theorem init_ignores_noise_outside_modes (sn mn : Z) (q r q' r' : R) :
  mn <> 1%Z -> mn <> 2%Z ->
  __init__ errorCov0 sn mn q r = __init__ errorCov0 sn mn q' r'.
Proof.
  intros H1 H2. unfold __init__.
  destruct (negb _); [reflexivity|].
  destruct (Kalman.create errorCov0 sn mn 0) as [kf|e]; [|reflexivity].
  cbn -[zeros]. apply Z.eqb_neq in H1, H2. rewrite H1. cbn -[zeros].
  now rewrite H2.
Qed.

Lemma stuck_predict_update (s : Stabilizer R) z :
  stuck_predict s -> update solve_svd z s = (Raise cv2_error, s).
Proof.
  intros H. rewrite update_unfold, (predict_mismatch _ H).
  destruct s; reflexivity.
Qed.

Lemma update_ok_rows (s : Stabilizer R) z :
  fst (update solve_svd z s) = Ok tt ->
  exists zv,
    read_measurement (measure_num s) z = Ok zv
    /\ rows zv = rows (Kalman.measurementMatrix (filter s)).
Proof.
  intros Hok.
  destruct (update_ok_inv solve_svd s z Hok)
    as (p & k1 & zv & k2 & Ep & Ez & Ec & _).
  pose proof (predict_model (filter s)) as [(_ & HH & _) _].
  rewrite Ep in HH. cbn in HH.
  destruct (correct_ok _ _ _ Ec) as [_ Hr].
  exists zv. split; [assumption | congruence].
Qed.

Lemma stuck_correct_update (s : Stabilizer R) z :
  stuck_correct s -> fst (update solve_svd z s) <> Ok tt.
Proof.
  intros [Hm Hr] Hok.
  destruct (update_ok_rows s z Hok) as (zv & Ez & Hrows).
  apply read_measurement_rows in Ez.
  apply Z.eqb_neq in Hm. rewrite Hm in Ez. congruence.
Qed.

Lemma stuck_update (s : Stabilizer R) z :
  stuck s ->
  fst (update solve_svd z s) <> Ok tt
  /\ stuck (snd (update solve_svd z s))
  /\ state (snd (update solve_svd z s)) = state s.
Proof.
  intros [H|H].
  - rewrite (stuck_predict_update z H). cbn.
    split; [discriminate|]. split; [now left | reflexivity].
  - pose proof (stuck_correct_update z H) as Hne.
    split; [assumption|]. split.
    + right. destruct H as [Hm Hr].
      destruct (update_model solve_svd s z) as ((_ & HH & _) & _ & Hm').
      split; congruence.
    + destruct (fst (update solve_svd z s)) as [[]|e] eqn:E;
        [congruence|]. now apply update_raise_state with (e := e).
Qed.

Lemma stuck_set_q_r (s : Stabilizer R) q r :
  stuck s -> stuck (set_q_r q r s) /\ state (set_q_r q r s) = state s.
Proof.
  destruct (set_q_r_keeps q r s) as (HF & HH & Hx & _ & Hm & Hs).
  intros [H|[H1 H2]]; (split; [|assumption]).
  - left. unfold stuck_predict in *. now rewrite HF, Hx.
  - right. split; congruence.
Qed.

Lemma stuck_after_calls cs (s : Stabilizer R) :
  stuck s ->
  stuck (after_calls solve_svd cs s)
  /\ state (after_calls solve_svd cs s) = state s.
Proof.
  unfold after_calls. revert s.
  induction cs as [|c cs IH]; intros s Hs; cbn; [now split|].
  assert (Hc : stuck (after_call solve_svd s c)
               /\ state (after_call solve_svd s c) = state s).
  { destruct c as [z|q r]; cbn.
    - now destruct (stuck_update z Hs) as (_ & ? & ?).
    - now apply stuck_set_q_r. }
  destruct Hc as [Hc Hst]. destruct (IH _ Hc) as [? ?].
  split; [assumption | congruence].
Qed.

Lemma init_unsupported_stuck sn mn q r s0 :
  __init__ errorCov0 sn mn q r = Ok s0 ->
  ~ supported sn mn ->
  stuck s0 /\ state s0 = zeros (Z.to_nat sn) 1.
Proof.
  intros E Hns.
  destruct (init_ok_fields errorCov0 _ _ _ _ E)
    as (Hsn & Hmn & _ & _ & Hst & _).
  split; [|assumption].
  destruct (Z.eq_dec mn 1) as [->|H1]; [|destruct (Z.eq_dec mn 2) as [->|H2]].
  - destruct Hsn as [-> | ->].
    + exfalso. apply Hns. left. auto.
    + cbn in E. injection E as <-. left. reflexivity.
  - destruct Hsn as [-> | ->].
    + cbn in E. injection E as <-. left. reflexivity.
    + exfalso. apply Hns. right. auto.
  - destruct (init_returns errorCov0 q r Hsn Hmn)
      as (s & E' & Esn & Emn & _ & Hdef).
    rewrite E in E'. injection E' as <-.
    destruct (Hdef H1 H2) as (_ & EH & _).
    right. split; [congruence|]. rewrite EH.
    rewrite (shape_rows (zeros_shape _ _)). lia.
Qed.

(** X11: an instance constructed outside the two supported
    configurations never completes an [update]: after any sequence of
    [update] and [set_q_r] calls every further [update] raises, whatever
    the measurement, and [state] is still the zero vector. *)
Theorem unsupported_instance_never_updates sn mn q r s0 cs z :
  __init__ errorCov0 sn mn q r = Ok s0 ->
  ~ supported sn mn ->
  fst (update solve_svd z (after_calls solve_svd cs s0)) <> Ok tt
  /\ state (after_calls solve_svd cs s0) = zeros (Z.to_nat sn) 1.
Proof.
  intros E Hns. destruct (init_unsupported_stuck _ _ E Hns) as [Hst Hz].
  destruct (stuck_after_calls cs Hst) as [Hst' Hz'].
  split; [|congruence].
  now destruct (stuck_update z Hst') as (? & _).
Qed.
End FurtherProperties.

(* ------------------------------------------------------------------ *)
(** ** The further properties at concrete instances *)

Lemma reachable_model_matrices_witness :
  reachable Run.solve_direct Run.zero_cov Scalar (Run.num (-1))
            (Run.num (-1)) Run.retuned_negative
  /\ Kalman.transitionMatrix (filter Run.retuned_negative) = lit_F2
  /\ Kalman.measurementMatrix (filter Run.retuned_negative) = lit_H2
  /\ consistent Run.retuned_negative = true.
Proof.
  assert (H : reachable Run.solve_direct Run.zero_cov Scalar (Run.num (-1))
                (Run.num (-1)) Run.retuned_negative).
  { unfold Run.retuned_negative.
    apply (reach_set_q_r _ _ (fresh_reachable Scalar)). }
  split; [exact H|]. exact (reachable_model_matrices H).
Defined.

Lemma update_ok_exposes_filter_states_witness :
  fst (Run.step [Run.num 10; Run.num 20] (Run.fresh Point2D)) = Ok tt
  /\ state (snd (Run.step [Run.num 10; Run.num 20] (Run.fresh Point2D)))
     = Kalman.statePost
         (filter (snd (Run.step [Run.num 10; Run.num 20]
                         (Run.fresh Point2D))))
  /\ prediction (snd (Run.step [Run.num 10; Run.num 20] (Run.fresh Point2D)))
     = Kalman.statePre
         (filter (snd (Run.step [Run.num 10; Run.num 20]
                         (Run.fresh Point2D)))).
Proof.
  assert (H : fst (Run.step [Run.num 10; Run.num 20] (Run.fresh Point2D))
              = Ok tt) by (vm_compute; reflexivity).
  split; [exact H|].
  pose proof (update_ok_exposes_filter_states Run.solve_direct
                (Run.fresh Point2D) [Run.num 10; Run.num 20] H)
    as (Hs & Hp & _).
  split; [exact Hs | exact Hp].
Defined.

Lemma update_raise_keeps_state_witness :
  fst (Run.step [] (Run.fresh Scalar)) = Raise IndexError
  /\ state (snd (Run.step [] (Run.fresh Scalar))) = state (Run.fresh Scalar).
Proof.
  assert (H : fst (Run.step [] (Run.fresh Scalar)) = Raise IndexError)
    by (vm_compute; reflexivity).
  split; [exact H|].
  exact (proj1 (update_raise_keeps_state Run.solve_direct
                  (Run.fresh Scalar) [] H)).
Defined.

Lemma update_short_advances_filter_witness :
  reachable Run.solve_direct Run.zero_cov Point2D Run.cov_process
            Run.cov_measure (Run.fresh Point2D)
  /\ length [Run.num 10] < mode_m Point2D
  /\ exists p,
       mat_mul (Kalman.transitionMatrix (filter (Run.fresh Point2D)))
               (Kalman.statePost (filter (Run.fresh Point2D))) = Ok p
       /\ fst (Run.step [Run.num 10] (Run.fresh Point2D)) = Raise IndexError
       /\ prediction (snd (Run.step [Run.num 10] (Run.fresh Point2D))) = p
       /\ Kalman.statePost
            (filter (snd (Run.step [Run.num 10] (Run.fresh Point2D)))) = p
       /\ state (snd (Run.step [Run.num 10] (Run.fresh Point2D)))
          = state (Run.fresh Point2D)
       /\ measurement (snd (Run.step [Run.num 10] (Run.fresh Point2D)))
          = measurement (Run.fresh Point2D).
Proof.
  split; [apply fresh_reachable|]. split; [cbn; lia|].
  apply (update_short_advances_filter [Run.num 10]
           (fresh_reachable Point2D)).
  cbn; lia.
Defined.

Lemma retune_keeps_next_prediction_witness :
  reachable Run.solve_direct Run.zero_cov Scalar Run.cov_process
            Run.cov_measure (Run.fresh Scalar)
  /\ prediction (snd (Run.step [Run.num 5]
                        (set_q_r (Run.num 2) (Run.num 3) (Run.fresh Scalar))))
     = prediction (snd (Run.step [Run.num 5] (Run.fresh Scalar))).
Proof.
  split; [apply fresh_reachable|].
  exact (retune_keeps_next_prediction (Run.num 2) (Run.num 3) [Run.num 5]
           (fresh_reachable Scalar)).
Defined.

Lemma point_update_reads_two_components_witness :
  measure_num (Run.fresh Point2D) <> 1%Z
  /\ nth_error [Run.num 10; Run.num 20; Run.num 30] 0
     = nth_error [Run.num 10; Run.num 20] 0
  /\ nth_error [Run.num 10; Run.num 20; Run.num 30] 1
     = nth_error [Run.num 10; Run.num 20] 1
  /\ Run.step [Run.num 10; Run.num 20; Run.num 30] (Run.fresh Point2D)
     = Run.step [Run.num 10; Run.num 20] (Run.fresh Point2D).
Proof.
  assert (H : measure_num (Run.fresh Point2D) <> 1%Z)
    by (cbn; discriminate).
  split; [exact H|]. split; [reflexivity|]. split; [reflexivity|].
  apply (point_update_reads_two_components Run.solve_direct
           (Run.fresh Point2D) [Run.num 10; Run.num 20; Run.num 30]
           [Run.num 10; Run.num 20] H); reflexivity.
Defined.

Lemma init_ignores_noise_outside_modes_witness :
  (3 <> 1)%Z /\ (3 <> 2)%Z
  /\ Run.init 4 3 Run.cov_process Run.cov_measure
     = Run.init 4 3 (Run.num 7) (Run.num (-1)).
Proof.
  assert (H1 : (3 <> 1)%Z) by discriminate.
  assert (H2 : (3 <> 2)%Z) by discriminate.
  split; [exact H1|]. split; [exact H2|].
  exact (init_ignores_noise_outside_modes Run.zero_cov 4 Run.cov_process
           Run.cov_measure (Run.num 7) (Run.num (-1)) H1 H2).
Defined.

Lemma unsupported_instance_never_updates_witness :
  exists s0,
    Run.init 4 1 Run.cov_process Run.cov_measure = Ok s0
    /\ ~ supported 4 1
    /\ fst (Run.step [Run.num 5]
              (after_calls Run.solve_direct
                 [call_update [Run.num 5];
                  call_set_q_r (Run.num 2) (Run.num 3)] s0))
       <> Ok tt
    /\ state (after_calls Run.solve_direct
                [call_update [Run.num 5];
                 call_set_q_r (Run.num 2) (Run.num 3)] s0)
       = zeros 4 1.
Proof.
  assert (Hns : ~ supported 4 1).
  { intros [[E _] | [_ E]]; discriminate E. }
  eexists. split; [reflexivity|]. split; [exact Hns|].
  exact (unsupported_instance_never_updates Run.solve_direct Run.zero_cov
           Run.cov_process Run.cov_measure
           [call_update [Run.num 5]; call_set_q_r (Run.num 2) (Run.num 3)]
           [Run.num 5] (sn := 4) (mn := 1) eq_refl Hns).
Defined.
